(** * OpenChat 2.0 backend: chat orchestration, streaming and titles

    A shallow embedding of [backend/app.py], [backend/provider/ollama.py]
    and [backend/memory/store.py], followed by the properties of the
    specification that concern them.

    Data model.
    - A Python [str] is a Rocq [string]; one [ascii] stands for one code
      point in the range U+0000..U+00FF.  The character classes below
      ([isspace], [lower_char], [isprintable]) are CPython's on that range.
    - [Optional[T]] is [option T]; Python truthiness of a string is
      non-emptiness ([truthy]).
    - An exception is a value of [exc]; fallible code returns [except A].
      Only subclasses of [Exception] are modelled (the handlers of the
      source are all [except Exception]).
    - What the process finds at import time and what the Ollama daemon and
      the model answer are fields of an environment record [Env].
    - The process-wide dictionary [_session_store] is a [gmap] from session
      id to message log, threaded through the endpoint bodies.
    - The events of the streaming endpoint are kept as the JSON objects
      they encode ([StreamEvent]), not as the bytes of their SSE frames. *)

From Stdlib Require Import ZArith Lia Bool Ascii String List.
From stdpp Require Import base option list strings gmap.

Local Open Scope string_scope.
Local Open Scope list_scope.
Local Open Scope bool_scope.
Local Open Scope nat_scope.

(** ** Python [str] primitives *)

Module Py.

Definition ord (c : ascii) : N := N_of_ascii c.

Definition between (lo hi : N) (c : ascii) : bool :=
  ((lo <=? ord c) && (ord c <=? hi))%N.

(** [str.isspace] on one character; also the class [\s] of [re] for
    [str] patterns.  Below U+0100 the whitespace code points are
    9..13, 28..32, 0x85 and 0xA0. *)
Definition isspace (c : ascii) : bool :=
  between 9 13 c || between 28 32 c || (ord c =? 133)%N || (ord c =? 160)%N.

(** [str.lower] on one character: A..Z and U+00C0..U+00DE except the
    multiplication sign move up by 32. *)
Definition lower_char (c : ascii) : ascii :=
  if between 65 90 c || (between 192 222 c && negb (ord c =? 215)%N)
  then ascii_of_N (ord c + 32) else c.

(** [str.isprintable] on one character (used by [repr]). *)
Definition isprintable (c : ascii) : bool :=
  negb (between 0 31 c || between 127 160 c || (ord c =? 173)%N).

Fixpoint dropwhile (p : ascii -> bool) (l : list ascii) : list ascii :=
  match l with
  | c :: r => if p c then dropwhile p r else l
  | [] => []
  end.

Fixpoint takewhile (p : ascii -> bool) (l : list ascii) : list ascii :=
  match l with
  | c :: r => if p c then c :: takewhile p r else []
  | [] => []
  end.

(** Removal of a leading and of a trailing run of characters of a class. *)
Definition lstrip_by (p : ascii -> bool) (l : list ascii) : list ascii :=
  dropwhile p l.
Definition rstrip_by (p : ascii -> bool) (l : list ascii) : list ascii :=
  rev (dropwhile p (rev l)).
Definition strip_by (p : ascii -> bool) (l : list ascii) : list ascii :=
  rstrip_by p (lstrip_by p l).

Definition mem (set : string) (c : ascii) : bool :=
  existsb (Ascii.eqb c) (list_ascii_of_string set).

Definition on_chars (f : list ascii -> list ascii) (s : string) : string :=
  string_of_list_ascii (f (list_ascii_of_string s)).

(** [s.strip()] *)
Definition strip (s : string) : string := on_chars (strip_by isspace) s.
(** [s.strip(chars)] *)
Definition strip_chars (chars s : string) : string :=
  on_chars (strip_by (mem chars)) s.
(** [s.lower()] *)
Definition lower (s : string) : string := on_chars (map lower_char) s.

(** Truthiness of a [str]. *)
Definition truthy (s : string) : bool := negb (String.eqb s "").

(** [x or d] for [x : Optional[str]]. *)
Definition or_str (x : option string) (d : string) : string :=
  match x with
  | Some s => if truthy s then s else d
  | None => d
  end.

(** [l[-n:]] for [n > 0]. *)
Definition last_n {A} (n : nat) (l : list A) : list A :=
  drop (length l - n) l.

(** [l[:k]] for any integer [k]: a negative [k] counts from the end. *)
Definition slice_to {A} (k : Z) (l : list A) : list A :=
  if (0 <=? k)%Z then take (Z.to_nat k) l
  else take (Z.to_nat (Z.of_nat (length l) + k)) l.

(** [s.split(" ")]: cut at every single space, empty pieces kept. *)
Fixpoint split_space (l : list ascii) : list (list ascii) :=
  match l with
  | [] => [[]]
  | c :: r =>
      if Ascii.eqb c " " then [] :: split_space r
      else match split_space r with
           | w :: ws => (c :: w) :: ws
           | [] => [[c]]
           end
  end.

(** [" ".join(ws)] *)
Fixpoint join_space (ws : list (list ascii)) : list ascii :=
  match ws with
  | [] => []
  | [w] => w
  | w :: ws' => w ++ " "%char :: join_space ws'
  end.

(** [len(s.split())]: the number of whitespace-delimited tokens, counted
    as the number of characters that start a maximal run of
    non-whitespace; [inside] tells whether the previous character was
    part of a token. *)
Fixpoint count_tokens (inside : bool) (l : list ascii) : nat :=
  match l with
  | [] => 0
  | c :: r =>
      if isspace c then count_tokens false r
      else (if inside then 0 else 1) + count_tokens true r
  end.

Definition token_count (s : string) : nat :=
  count_tokens false (list_ascii_of_string s).

(** *** [repr] of a [str] and of a list of [str] *)

Definition hex_digit (n : N) : ascii :=
  if (n <? 10)%N then ascii_of_N (48 + n) else ascii_of_N (87 + n).

Definition repr_char (quote : ascii) (c : ascii) : list ascii :=
  if Ascii.eqb c quote || Ascii.eqb c "\" then ["\"%char; c]
  else if (ord c =? 9)%N then ["\"%char; "t"%char]
  else if (ord c =? 10)%N then ["\"%char; "n"%char]
  else if (ord c =? 13)%N then ["\"%char; "r"%char]
  else if isprintable c then [c]
  else ["\"%char; "x"%char; hex_digit (ord c / 16); hex_digit (ord c mod 16)].

(** The double quote, U+0022. *)
Definition dquote : ascii := "034"%char.

Definition repr_quote (l : list ascii) : ascii :=
  if existsb (Ascii.eqb "'") l && negb (existsb (Ascii.eqb dquote) l)
  then dquote else "'"%char.

Definition repr_str (s : string) : string :=
  let l := list_ascii_of_string s in
  let q := repr_quote l in
  string_of_list_ascii (q :: concat (map (repr_char q) l) ++ [q]).

(** [str(names)] for a list of strings. *)
Definition repr_list (names : list string) : string :=
  "[" +:+ String.concat ", " (map repr_str names) +:+ "]".

End Py.

(** ** The three substitutions of [re.sub] used by the title code

    Each is a left-to-right scan.  Where the pattern matches at the current
    position with length [n], the replacement is emitted and the next
    [n - 1] characters are skipped ([skip] counts them); elsewhere the
    character is copied. *)

Module Re.

Definition is_backtick (c : ascii) : bool := Ascii.eqb c "`".
Definition is_hash (c : ascii) : bool := Ascii.eqb c "#".
Definition is_newline (c : ascii) : bool := Ascii.eqb c "010".

(** Length of the shortest prefix of [l] that ends with three backticks:
    what the lazy [[\s\S]*?```] consumes. *)
Fixpoint fence_close (l : list ascii) : option nat :=
  match l with
  | [] => None
  | a :: r =>
      match r with
      | b :: c :: _ =>
          if is_backtick a && is_backtick b && is_backtick c then Some 3
          else S <$> fence_close r
      | _ => None
      end
  end.

(** Length of the match of [```[\s\S]*?```] at the head of [l], if any. *)
Definition fence_len (l : list ascii) : option nat :=
  match l with
  | a :: b :: c :: r =>
      if is_backtick a && is_backtick b && is_backtick c
      then (fun n => 3 + n) <$> fence_close r
      else None
  | _ => None
  end.

(** [re.sub(r"```[\s\S]*?```", " ", text)] *)
Fixpoint sub_fences_from (skip : nat) (l : list ascii) : list ascii :=
  match l with
  | [] => []
  | c :: r =>
      match skip with
      | S k => sub_fences_from k r
      | 0 =>
          match fence_len l with
          | Some n => " "%char :: sub_fences_from (n - 1) r
          | None => c :: sub_fences_from 0 r
          end
      end
  end.

Definition sub_fences (s : string) : string :=
  Py.on_chars (sub_fences_from 0) s.

(** Length of the match of [#+\s*] at the head of [l] (0 when [l] does
    not start with a hash sign). *)
Definition header_len (l : list ascii) : nat :=
  length (Py.takewhile is_hash l)
  + length (Py.takewhile Py.isspace (Py.dropwhile is_hash l)).

(** [^] under [re.M]: at the start of the text or right after a line feed;
    [prev] is the character before the current position. *)
Definition at_line_start (prev : option ascii) : bool :=
  match prev with
  | None => true
  | Some p => is_newline p
  end.

(** [re.sub(r"^#+\s*", "", text, flags=re.M)] *)
Fixpoint sub_headers_from (prev : option ascii) (skip : nat)
    (l : list ascii) : list ascii :=
  match l with
  | [] => []
  | c :: r =>
      match skip with
      | S k => sub_headers_from (Some c) k r
      | 0 =>
          if at_line_start prev && is_hash c
          then sub_headers_from (Some c) (header_len l - 1) r
          else c :: sub_headers_from (Some c) 0 r
      end
  end.

Definition sub_headers (s : string) : string :=
  Py.on_chars (sub_headers_from None 0) s.

(** [re.sub(r"\s+", " ", text)]; [in_run] tells whether the previous
    character was whitespace (its run has already been replaced). *)
Fixpoint collapse_from (in_run : bool) (l : list ascii) : list ascii :=
  match l with
  | [] => []
  | c :: r =>
      if Py.isspace c
      then (if in_run then [] else [" "%char]) ++ collapse_from true r
      else c :: collapse_from false r
  end.

Definition collapse_ws (s : string) : string :=
  Py.on_chars (collapse_from false) s.

(** The class [[\.,;:!?\-\s]]. *)
Definition is_trailer (c : ascii) : bool :=
  Py.mem ".,;:!?-" c || Py.isspace c.

(** [re.sub(r"[\.,;:!?\-\s]+$", "", text)]: the class contains the line
    feed, so the only match is the maximal run of the class that ends the
    text. *)
Definition sub_trailing (s : string) : string :=
  Py.on_chars (Py.rstrip_by is_trailer) s.

(** The class of the three quote characters: double quote, single
    quote and backtick. *)
Definition is_quote (c : ascii) : bool :=
  Ascii.eqb c Py.dquote || Ascii.eqb c "'" || Ascii.eqb c "`".

(** [re.sub] of every run of quote characters by the empty string
    (line 190). *)
Definition sub_quotes (s : string) : string :=
  Py.on_chars (List.filter (fun c => negb (is_quote c))) s.

End Re.

(** ** Request types ([app.py], lines 81-99) *)

Record HistoryItem := { role : string; content : string }.

(** A value of a [user_context] entry: [None] or a string.  The other JSON
    values that line 93 admits (numbers, booleans, lists, objects) are not
    modelled; the statements about the session store name this domain in
    their hypotheses ([conversation_id_is_text]). *)
Inductive pyval :=
  | PNone
  | PStr (s : string).

Record ChatRequest := {
  message : string;
  history : option (list HistoryItem);
  model : option string;
  system : option string;
  tools_enabled : option bool;
  reasoning_enabled : option bool;
  user_context : option (gmap string pyval)
}.

Record TitleRequest := {
  messages : list HistoryItem;
  title_model : option string;
  max_words : Z
}.

(** ** Heuristic title ([app.py], lines 142-167) *)

Definition NEW_CHAT : string := "New Chat".

(** The two [for m in reversed(messages)] loops. *)
Definition select_text (msgs : list HistoryItem) : string :=
  let text :=
    match List.find (fun m => String.eqb (Py.lower (role m)) "user"
                              && Py.truthy (Py.strip (content m)))
                    (rev msgs) with
    | Some m => content m
    | None => ""
    end in
  if Py.truthy text then text
  else match List.find (fun m => Py.truthy (Py.strip (content m)))
                       (rev msgs) with
       | Some m => content m
       | None => text
       end.

(** Lines 161-163: [words = text.split(" ")] and the cut to [max_words]. *)
Definition limit_words (max_words : Z) (text : string) : string :=
  let words := Py.split_space (list_ascii_of_string text) in
  if (max_words <? Z.of_nat (length words))%Z
  then string_of_list_ascii (Py.join_space (Py.slice_to max_words words))
  else text.

(** The characters stripped at line 165: double quote, single quote,
    backtick and space. *)
Definition QUOTE_CHARS : string := String Py.dquote "'` ".

Definition _heuristic_title (msgs : list HistoryItem) (max_words : Z) : string :=
  let text := select_text msgs in
  let text := Py.strip (Py.or_str (Some text) NEW_CHAT) in
  let text := Re.sub_fences text in
  let text := Re.sub_headers text in
  let text := Py.strip (Re.collapse_ws text) in
  let text := limit_words max_words text in
  let text := Py.strip_chars QUOTE_CHARS text in
  let text := Re.sub_trailing text in
  Py.or_str (Some text) NEW_CHAT.

(** ** Exceptions, messages and the model client *)

Inductive exc :=
  | RuntimeError (msg : string)
  | IndexError (msg : string)
  | BackendError (msg : string).

(** [str(e)] *)
Definition str_exc (e : exc) : string :=
  match e with
  | RuntimeError msg | IndexError msg | BackendError msg => msg
  end.

Inductive except (A : Type) :=
  | Return (a : A)
  | Raise (e : exc).
Arguments Return {A} a.
Arguments Raise {A} e.

(** [HumanMessage(content=..)] and [AIMessage(content=..)] of
    [langchain_core.messages]. *)
Inductive Message :=
  | HumanMessage (text : string)
  | AIMessage (text : string).

(** [ChatOllama(model=.., streaming=..)] *)
Record ChatOllama := { llm_model : string; llm_streaming : bool }.

(** What [llm.invoke] is called with: the message list of [/chat], or the
    prompt of [/title].  The prompt is the fixed instruction of lines
    179-180 followed by one line per pair (role, content); it is kept as
    these pairs, since [str.capitalize] of a role can leave the range
    U+0000..U+00FF. *)
Inductive LLMInput :=
  | ChatMessages (msgs : list Message)
  | TitlePrompt (turns : list (string * string)).

(** One item of [llm.stream(msgs)]: [chunk_content] is the chunk's
    [content] attribute, [None] when the chunk has none. *)
Record Chunk := { chunk_content : option string }.

(** A run of the iterator [llm.stream(msgs)]: the chunks it produces, then
    either exhaustion or an exception.  Runs that never end are not
    modelled. *)
Record StreamRun := { chunks : list Chunk; failure : option exc }.

(** The world around the process. *)
Record Env := {
  (** [from langchain_core.messages import ..] succeeds ([app.py], line 17) *)
  langchain_core_importable : bool;
  (** [from provider.ollama import ..] succeeds ([app.py], line 23) *)
  provider_importable : bool;
  (** [from langchain_ollama import ChatOllama] succeeds
      ([provider/ollama.py], line 8) *)
  langchain_ollama_importable : bool;
  (** [from .chains.compose ..] and [from .memory.store ..] succeed
      ([app.py], lines 71-72) *)
  lcel_importable : bool;
  (** the [name] fields of the answer to [GET /api/tags] (empty for an entry
      without a name); [None] when the request fails or is not [ok] *)
  api_tags : option (list string);
  (** [llm.invoke(x)]: the content of the reply, or the exception raised *)
  invoke : ChatOllama -> LLMInput -> except string;
  (** whether that call is still running after two seconds *)
  invoke_over_2s : ChatOllama -> LLMInput -> bool;
  (** [llm.stream(msgs)] *)
  stream : ChatOllama -> list Message -> StreamRun
}.

(** ** [provider/ollama.py] *)

Module provider_ollama.

(** Lines 7-11. *)
Definition OLLAMA_AVAILABLE (env : Env) : bool :=
  langchain_ollama_importable env.

(** Lines 25-37. *)
Definition list_models (env : Env) : list string :=
  match api_tags env with
  | Some names => List.filter Py.truthy names
  | None => []
  end.

(** The candidates of line 55, in order. *)
Definition CANDIDATES : list string :=
  ["llama3.1:8b"; "llama3.1"; "llama3:8b"; "qwen2.5:7b"; "mistral:7b"].

(** The f-string of line 52. *)
Definition not_installed (selected : string) (names : list string) : string :=
  "Requested model '" +:+ selected +:+
  "' is not installed in Ollama. Install it (e.g., 'ollama pull " +:+
  selected +:+ "') or select an installed model: " +:+ Py.repr_list names.

(** Lines 55-60: the value of [selected] when no model was asked for. *)
Definition default_model (names : list string) : string :=
  match List.find (fun cand => bool_decide (cand ∈ names)) CANDIDATES with
  | Some cand => cand
  | None => match names with n :: _ => n | [] => "llama3.1" end
  end.

(** Lines 48-60: the value of [selected] at line 62, or the exception of
    line 52.  [if selected:] holds for a non-empty string; [None] and the
    empty string take the [else] branch. *)
Definition select_model (model : option string) (names : list string)
    : except string :=
  match model with
  | Some selected =>
      if Py.truthy selected then
        if decide (selected ∈ names) then Return selected
        else Raise (RuntimeError (not_installed selected names))
      else Return (default_model names)
  | None => Return (default_model names)
  end.

(** Lines 40-62. *)
Definition get_llm (env : Env) (model : option string) (streaming : bool)
    : except ChatOllama :=
  if negb (OLLAMA_AVAILABLE env)
  then Raise (RuntimeError "langchain-ollama not installed")
  else
    match select_model model (list_models env) with
    | Return selected =>
        Return {| llm_model := selected; llm_streaming := streaming |}
    | Raise e => Raise e
    end.

End provider_ollama.

(** ** [memory/store.py] *)

Module memory_store.

(** [_session_store]: session id to message log. *)
Abbreviation Store := (gmap string (list Message)).

(** Lines 10-13: the entry is created empty when absent; the returned
    history object is the entry at [session_id]. *)
Definition get_session_history (session_id : string) (σ : Store) : Store :=
  match σ !! session_id with
  | Some _ => σ
  | None => <[session_id := []]> σ
  end.

(** [hist.add_user_message(c)] and [hist.add_ai_message(c)] on the history
    object of [session_id]. *)
Definition add_message (session_id : string) (m : Message) (σ : Store) : Store :=
  match σ !! session_id with
  | Some log => <[session_id := log ++ [m]]> σ
  | None => σ
  end.

End memory_store.

Import memory_store.

(** ** Endpoint bodies

    The body of an endpoint may emit [StreamEvent]s (when it is the async
    generator of the streaming endpoint), read and write the process-wide
    session store, and raise: a computation yields the events emitted so
    far, the store and either a value or the exception in flight.  A run is
    a complete one: the consumer reads the generator to its end. *)

Inductive StreamEvent :=
  | EMeta (model_name : string) (history_len : nat)
  | EToken (text : string)
  | EError (msg : string)
  | EDone.

Definition Gen (A : Type) : Type :=
  Store -> list StreamEvent * Store * except A.

Definition ret {A} (a : A) : Gen A := fun σ => ([], σ, Return a).

Definition bind {A B} (m : Gen A) (f : A -> Gen B) : Gen B :=
  fun σ =>
    let '(evs, σ1, r) := m σ in
    match r with
    | Return a => let '(evs', σ2, r') := f a σ1 in (evs ++ evs', σ2, r')
    | Raise e => (evs, σ1, Raise e)
    end.

Notation "x <- m ;; k" := (bind m (fun x => k))
  (at level 100, m at next level, right associativity).
Notation "m ;; k" := (bind m (fun _ => k))
  (at level 100, right associativity).

(** [yield ev] *)
Definition yield (ev : StreamEvent) : Gen unit := fun σ => ([ev], σ, Return tt).

(** [raise e] *)
Definition raise {A} (e : exc) : Gen A := fun σ => ([], σ, Raise e).

(** A fallible pure call made from the generator. *)
Definition call {A} (r : except A) : Gen A := fun σ => ([], σ, r).

(** A change of the session store. *)
Definition modify (f : Store -> Store) : Gen unit := fun σ => ([], f σ, Return tt).

(** [try: m / except Exception as e: h e] *)
Definition try_except {A} (m : Gen A) (h : exc -> Gen A) : Gen A :=
  fun σ =>
    let '(evs, σ1, r) := m σ in
    match r with
    | Return a => (evs, σ1, Return a)
    | Raise e => let '(evs', σ2, r') := h e σ1 in (evs ++ evs', σ2, r')
    end.

(** [try: m / finally: fin]: [fin] runs on every exit; an exception of [m]
    goes on after it unless [fin] raises itself. *)
Definition try_finally {A} (m : Gen A) (fin : Gen unit) : Gen A :=
  fun σ =>
    let '(evs, σ1, r) := m σ in
    let '(evs', σ2, r') := fin σ1 in
    (evs ++ evs', σ2, match r' with Return _ => r | Raise e => Raise e end).

(** [for x in l: body x] *)
Fixpoint for_each {A} (l : list A) (body : A -> Gen unit) : Gen unit :=
  match l with
  | [] => ret tt
  | x :: l' => body x ;; for_each l' body
  end.

(** [for chunk in llm.stream(msgs): body chunk]: the loop ends when the
    iterator is exhausted, or with the exception the iterator raises. *)
Definition for_stream (run : StreamRun) (body : Chunk -> Gen unit) : Gen unit :=
  for_each (chunks run) body ;;
  match failure run with
  | Some e => raise e
  | None => ret tt
  end.

(** ** [app.py] *)

(** Lines 15-20: the flag of [app.py] follows the import of
    [langchain_core.messages]. *)
Definition OLLAMA_AVAILABLE (env : Env) : bool := langchain_core_importable env.

(** Lines 22-28: the provider's functions, or the stubs. *)
Definition get_llm (env : Env) (model : option string) (streaming : bool)
    : except ChatOllama :=
  if provider_importable env then provider_ollama.get_llm env model streaming
  else Raise (RuntimeError "Ollama provider not available").

Definition list_models (env : Env) : list string :=
  if provider_importable env then provider_ollama.list_models env else [].

(** Lines 69-78: the store's function, or the stub. *)
Definition get_session_history (env : Env) (session_id : string) : Gen unit :=
  if lcel_importable env
  then modify (memory_store.get_session_history session_id)
  else raise (RuntimeError "History store not available").

(** Lines 210 and 253:
    [(req.user_context or {}).get("conversation_id") or "default"]. *)
Definition session_id (req : ChatRequest) : string :=
  match default ∅ (user_context req) !! "conversation_id" with
  | Some (PStr s) => Py.or_str (Some s) "default"
  | Some PNone | None => "default"
  end.

(** Lines 218 and 272: [req.model or "llama3.1"]. *)
Definition requested_model (req : ChatRequest) : string :=
  Py.or_str (model req) "llama3.1".

Definition is_assistant (h : HistoryItem) : bool :=
  String.eqb (Py.lower (role h)) "assistant".

(** Lines 224-227 and 279-282. *)
Definition to_message (h : HistoryItem) : Message :=
  if is_assistant h then AIMessage (content h) else HumanMessage (content h).

Definition LF : string := String "010" EmptyString.

(** Lines 219-228 of [chat] and 273-283 of [chat_sse] (the same text). *)
Definition build_messages (req : ChatRequest) : list Message :=
  (if Py.truthy (Py.strip (Py.or_str (system req) ""))
   then [HumanMessage ("[SYSTEM]" +:+ LF +:+ Py.or_str (system req) "")]
   else [])
  ++ match history req with
     | Some ((_ :: _) as hs) => map to_message (Py.last_n 10 hs)
     | Some [] | None => []
     end
  ++ [HumanMessage (message req)].

Record ChatResponse := {
  output : string;
  (** the entry [model] of the reply, when the reply has one *)
  model_entry : option (option string)
}.

Definition error_reply (e : exc) : ChatResponse :=
  {| output := "Error from model: " +:+ str_exc e; model_entry := None |}.

(** Lines 201-239.  [session_id] is computed at line 210 and only logged;
    the body never refers to the session store. *)
Definition chat (env : Env) (req : ChatRequest) : Gen ChatResponse :=
  if negb (OLLAMA_AVAILABLE env) then
    ret {| output := "Backend is running, but langchain-ollama is not installed.";
           model_entry :=
             Some (match model req with
                   | Some m => if Py.truthy m then Some m else None
                   | None => None
                   end) |}
  else
    try_except
      (llm <- call (get_llm env (Some (requested_model req)) false) ;;
       let msgs := build_messages req in
       text <- call (invoke env llm (ChatMessages msgs)) ;;
       ret {| output := text; model_entry := None |})
      (fun e => ret (error_reply e)).

(** Lines 258-268: the history of the request is copied to the store;
    any exception is dropped. *)
Definition seed_history (env : Env) (req : ChatRequest) (sid : string) : Gen unit :=
  try_except
    (get_session_history env sid ;;
     match history req with
     | Some ((_ :: _) as hs) =>
         for_each (Py.last_n 10 hs) (fun h => modify (add_message sid (to_message h)))
     | Some [] | None => ret tt
     end)
    (fun _ => ret tt).

Definition FALLBACK_TEXT : string :=
  "Backend running. Install langchain-ollama for live streaming. ".

(** Lines 246-307. *)
Definition event_stream (env : Env) (req : ChatRequest) : Gen unit :=
  if negb (OLLAMA_AVAILABLE env) then
    yield (EToken FALLBACK_TEXT) ;;
    yield EDone
  else
    let sid := session_id req in
    seed_history env req sid ;;
    try_finally
      (try_except
         (llm <- call (get_llm env (Some (requested_model req)) true) ;;
          let msgs := build_messages req in
          try_except
            (yield (EMeta (Py.or_str (Some (llm_model llm)) (requested_model req))
                          (length (default [] (history req)))))
            (fun _ => ret tt) ;;
          for_stream (stream env llm msgs) (fun chunk =>
            let txt := Py.or_str (chunk_content chunk) "" in
            if negb (Py.truthy txt) then ret tt
            else yield (EToken txt)))
         (fun e => yield (EError (str_exc e))))
      (yield EDone).

(** The events a consumer of [/lcel/chat/sse] reads. *)
Definition events (env : Env) (req : ChatRequest) (σ : Store) : list StreamEvent :=
  (event_stream env req σ).1.1.

(** *** [/title] (lines 170-198) *)

(** The line boundaries of [str.splitlines] below U+0100. *)
Definition is_linebreak (c : ascii) : bool :=
  Py.between 10 13 c || Py.between 28 30 c || (Py.ord c =? 133)%N.

(** [txt.splitlines()[0]] *)
Definition first_line (txt : string) : except string :=
  match txt with
  | EmptyString => Raise (IndexError "list index out of range")
  | _ => Return (Py.on_chars (Py.takewhile (fun c => negb (is_linebreak c))) txt)
  end.

(** Line 181: the last eight turns, contents cut to 240 characters. *)
Definition title_prompt (req : TitleRequest) : LLMInput :=
  TitlePrompt (map (fun m => (role m, Py.on_chars (take 240) (content m)))
                   (Py.last_n 8 (messages req))).

(** Lines 176-197: [Some txt] when line 193 returns [txt], [None] when
    control reaches line 198. *)
Definition title_boost (env : Env) (req : TitleRequest) : option string :=
  match get_llm env (title_model req) false with
  | Raise _ => None
  | Return llm =>
      let prompt := title_prompt req in
      if invoke_over_2s env llm prompt then None
      else
        match invoke env llm prompt with
        | Raise _ => None
        | Return res =>
            match first_line (Py.strip res) with
            | Raise _ => None
            | Return line =>
                let txt := Py.strip line in
                let txt := Re.sub_quotes txt in
                let txt := Re.sub_trailing txt in
                if Py.truthy txt then Some txt else None
            end
        end
  end.

Definition generate_title (env : Env) (req : TitleRequest) : string :=
  let base := _heuristic_title (messages req) (max_words req) in
  if OLLAMA_AVAILABLE env then
    match title_boost env req with
    | Some txt => txt
    | None => base
    end
  else base.

(** *** [/ollama/health], [/models] and [/warm] (lines 102-139) *)

(** [provider/ollama.py], lines 16-22.  [version] is the answer to
    [GET /api/version]: [None] when the request raises, else its [ok]. *)
Definition is_online (version : option bool) : bool :=
  match version with
  | Some ok => ok
  | None => false
  end.

Record HealthReply := { online : bool; models_count : nat }.

(** Lines 107-115.  When the import of line 23 failed the name [is_online]
    is not bound; the [NameError] of line 111 is caught at line 114. *)
Definition ollama_health (env : Env) (version : option bool) : HealthReply :=
  if provider_importable env then
    let online := is_online version in
    let models := if online then list_models env else [] in
    {| online := online; models_count := length models |}
  else {| online := false; models_count := 0 |}.

(** Lines 118-123: the entry [models] of the reply. *)
Definition models (env : Env) : list string := list_models env.



(** *** The environment: lines 39-55 and 312-338 *)

(** [os.environ]. *)
Abbreviation Environ := (gmap string string).

(** Truthiness of [os.environ.get(name)]. *)
Definition env_set (environ : Environ) (name : string) : bool :=
  match environ !! name with
  | Some v => Py.truthy v
  | None => false
  end.

(** Lines 40-42. *)
Definition _ensure_env (name value : string) (environ : Environ) : Environ :=
  if negb (env_set environ name) then <[name := value]> environ else environ.

(** One [if] of lines 46-53: [legacy] is the [LANGSMITH_*] name, [current]
    the [LANGCHAIN_*] one. *)
Definition adopt_legacy (legacy current : string) (environ : Environ) : Environ :=
  if env_set environ legacy && negb (env_set environ current)
  then _ensure_env current (default "" (environ !! legacy)) environ
  else environ.

(** Lines 44-55. *)
Definition normalize_env (environ : Environ) : Environ :=
  let environ := adopt_legacy "LANGSMITH_TRACING" "LANGCHAIN_TRACING_V2" environ in
  let environ := adopt_legacy "LANGSMITH_ENDPOINT" "LANGCHAIN_ENDPOINT" environ in
  adopt_legacy "LANGSMITH_PROJECT" "LANGCHAIN_PROJECT" environ.

(** Lines 312-317. *)
Definition _mask (v : option string) : string :=
  match v with
  | None => ""
  | Some s =>
      if negb (Py.truthy s) then ""
      else if String.length s <=? 6 then "***"
      else Py.on_chars (take 3) s +:+ "***" +:+ Py.on_chars (Py.last_n 3) s
  end.

(** [sub in s] for two strings. *)
Fixpoint str_in (sub s : string) : bool :=
  String.prefix sub s
  || match s with
     | String _ rest => str_in sub rest
     | EmptyString => false
     end.

(** The keys of lines 323-333. *)
Definition DEBUG_KEYS : list string :=
  ["LANGCHAIN_TRACING_V2"; "LANGCHAIN_ENDPOINT"; "LANGCHAIN_PROJECT";
   "LANGCHAIN_API_KEY"; "LANGSMITH_TRACING"; "LANGSMITH_ENDPOINT";
   "LANGSMITH_PROJECT"; "OPENAI_API_KEY"; "OLLAMA_URL"].

(** Lines 334-338. *)
Definition env_debug (environ : Environ) : gmap string string :=
  foldl (fun out k =>
           let val := environ !! k in
           <[k := if str_in "KEY" k || str_in "TOKEN" k
                  then _mask val else Py.or_str val ""]> out)
        ∅ DEBUG_KEYS.

(** ** [models/llm.py] and [chains/compose.py] *)

Module models_llm.

(** Lines 5-9: the same import as in [provider/ollama.py]. *)
Definition OLLAMA_AVAILABLE (env : Env) : bool :=
  langchain_ollama_importable env.

(** Lines 14-20. *)
Definition get_llm (env : Env) (model : option string) (streaming : bool)
    : except ChatOllama :=
  if negb (OLLAMA_AVAILABLE env)
  then Raise (RuntimeError "langchain-ollama not installed")
  else provider_ollama.get_llm env model streaming.

End models_llm.

Module chains_compose.

(** Line 19 of [build_history_chain]: the second component of the pair it
    returns.  The first, the chain around this handle, is an object of
    LangChain and is not modelled. *)
Definition build_history_chain (env : Env) (model_name : string)
    : except ChatOllama :=
  models_llm.get_llm env (Some model_name) true.

End chains_compose.

(** ** Vocabulary of the statements *)

(** The token events of a run of chunks: one per chunk with non-empty
    content. *)
Definition token_events (cs : list Chunk) : list StreamEvent :=
  flat_map (fun chunk =>
              let txt := Py.or_str (chunk_content chunk) "" in
              if Py.truthy txt then [EToken txt] else []) cs.

Definition is_token (ev : StreamEvent) : Prop :=
  match ev with EToken _ => True | _ => False end.

Definition is_error (ev : StreamEvent) : bool :=
  match ev with EError _ => true | _ => false end.

(** [sub] occurs in [s]. *)
Definition occurs_in (sub s : string) : Prop :=
  ∃ pre post, s = pre +:+ sub +:+ post.

(** Every whitespace character of [l] is the plain space. *)
Definition single_spaced (l : list ascii) : Prop :=
  Forall (fun c => Py.isspace c = true → c = " "%char) l.

Definition no_space (l : list ascii) : Prop :=
  Forall (fun c => Py.isspace c = false) l.

(** The store once the history [hs] has been copied to session [sid]:
    what lines 260-266 leave when the store is importable. *)
Definition seeded (sid : string) (hs : list HistoryItem) (σ : Store) : Store :=
  foldl (fun s h => add_message sid (to_message h) s)
        (memory_store.get_session_history sid σ) hs.

Definition store_after_seed (env : Env) (req : ChatRequest) (sid : string)
    (σ : Store) : Store :=
  if lcel_importable env
  then seeded sid (Py.last_n 10 (default [] (history req))) σ
  else σ.

(** [req] with its [model] field replaced. *)
Definition with_model (m : option string) (req : ChatRequest) : ChatRequest :=
  {| message := message req; history := history req; model := m;
     system := system req; tools_enabled := tools_enabled req;
     reasoning_enabled := reasoning_enabled req;
     user_context := user_context req |}.

(** A message with the role [user], in any letter case, and with text. *)
Definition is_user_text (m : HistoryItem) : bool :=
  String.eqb (Py.lower (role m)) "user" && Py.truthy (Py.strip (content m)).

(** A message with text. *)
Definition has_text (m : HistoryItem) : bool :=
  Py.truthy (Py.strip (content m)).

(** The [LANGSMITH_*] name that lines 46-53 read for a [LANGCHAIN_*]
    name. *)
Definition legacy_name (current : string) : option string :=
  if String.eqb current "LANGCHAIN_TRACING_V2" then Some "LANGSMITH_TRACING"
  else if String.eqb current "LANGCHAIN_ENDPOINT" then Some "LANGSMITH_ENDPOINT"
  else if String.eqb current "LANGCHAIN_PROJECT" then Some "LANGSMITH_PROJECT"
  else None.

(** The [conversation_id] of the request is missing, [None] or a string:
    the entries of [user_context] that [pyval] models. *)
Definition conversation_id_is_text (req : ChatRequest) : Prop :=
  user_context req = None
  ∨ ∃ ctx, user_context req = Some ctx
           ∧ (ctx !! "conversation_id" = None
              ∨ ctx !! "conversation_id" = Some PNone
              ∨ ∃ s, ctx !! "conversation_id" = Some (PStr s)).

(** [req] with its [history] field replaced. *)
Definition with_history (hs : option (list HistoryItem)) (req : ChatRequest)
    : ChatRequest :=
  {| message := message req; history := hs; model := model req;
     system := system req; tools_enabled := tools_enabled req;
     reasoning_enabled := reasoning_enabled req;
     user_context := user_context req |}.

(** ** Sample environments and requests *)

(** An environment whose model answers [reply] in time to every call and
    whose stream always runs as [run]. *)
Definition sample_env (core provider ollama lcel : bool)
    (tags : option (list string)) (reply : except string) (run : StreamRun) : Env :=
  {| langchain_core_importable := core;
     provider_importable := provider;
     langchain_ollama_importable := ollama;
     lcel_importable := lcel;
     api_tags := tags;
     invoke := fun _ _ => reply;
     invoke_over_2s := fun _ _ => false;
     stream := fun _ _ => run |}.

Definition hello_run : StreamRun :=
  {| chunks := [ {| chunk_content := Some "Hel" |};
                 {| chunk_content := None |};
                 {| chunk_content := Some "lo" |} ];
     failure := None |}.

Definition broken_run : StreamRun :=
  {| chunks := [ {| chunk_content := Some "Hel" |} ];
     failure := Some (BackendError "connection reset") |}.

(** Everything importable; [llama3.1] and [mistral:7b] installed. *)
Definition env_two_models : Env :=
  sample_env true true true true (Some ["llama3.1"; "mistral:7b"])
             (Return "Hello") hello_run.

(** Everything importable; only [mistral:7b] installed; the stream breaks
    after one chunk. *)
Definition env_only_mistral : Env :=
  sample_env true true true true (Some ["mistral:7b"])
             (Return "Hello") broken_run.

(** [langchain_core] is installed, [langchain_ollama] is not. *)
Definition env_core_only : Env :=
  sample_env true true false false (Some ["llama3.1"])
             (Return "Hello") hello_run.

(** No LangChain package is installed. *)
Definition env_bare : Env :=
  sample_env false true false false None (Return "Hello") hello_run.

(** The model answers the title prompt with a ten-word line. *)
Definition env_verbose : Env :=
  sample_env true true true true (Some ["llama3.1"])
             (Return "A Very Long Title With Too Many Words In It") hello_run.

Definition chat_request (msg : string) : ChatRequest :=
  {| message := msg; history := None; model := None; system := None;
     tools_enabled := Some false; reasoning_enabled := Some false;
     user_context := None |}.

Definition title_request (msg : string) (mw : Z) : TitleRequest :=
  {| messages := [ {| role := "user"; content := msg |} ];
     title_model := None; max_words := mw |}.

(** A request with history and an empty [conversation_id]. *)
Definition request_with_history (msg : string) (hs : list HistoryItem) : ChatRequest :=
  {| message := msg; history := Some hs; model := None; system := None;
     tools_enabled := Some false; reasoning_enabled := Some false;
     user_context := Some {[ "conversation_id" := PStr "" ]} |}.

(** The model needs more than two seconds. *)
Definition env_slow : Env :=
  {| langchain_core_importable := true;
     provider_importable := true;
     langchain_ollama_importable := true;
     lcel_importable := true;
     api_tags := Some ["llama3.1"];
     invoke := fun _ _ => Return "A Title From The Model";
     invoke_over_2s := fun _ _ => true;
     stream := fun _ _ => hello_run |}.

(** The model answers with a quoted title and a second line. *)
Definition env_quoting : Env :=
  sample_env true true true true (Some ["llama3.1"])
    (Return ("'Binary Search'." +:+ LF +:+ "More text")) hello_run.

(** A request with history in the conversation [name]. *)
Definition request_in (name : string) (hs : list HistoryItem) : ChatRequest :=
  {| message := "hello"; history := Some hs; model := None; system := None;
     tools_enabled := Some false; reasoning_enabled := Some false;
     user_context := Some {[ "conversation_id" := PStr name ]} |}.

(** Everything importable and [llama3.1] installed; the model call
    raises. *)
Definition env_refusing : Env :=
  sample_env true true true true (Some ["llama3.1"])
             (Raise (BackendError "connection refused")) hello_run.

(** Everything importable except the store; [llama3.1] installed. *)
Definition env_no_store : Env :=
  sample_env true true true false (Some ["llama3.1"])
             (Return "Hello") hello_run.

(** Twelve turns of history. *)
Definition twelve_turns : list HistoryItem :=
  replicate 12 {| role := "user"; content := "q" |}.

(** The message of Scenario D: a fenced block, a heading line, a line of
    text. *)
Definition SCENARIO_D : string :=
  "```code fence```" +:+ LF +:+ "# Heading" +:+ LF +:+ "Deploy the service".

(** * Properties *)

(** ** Strings and tokens *)

Lemma chars_on_chars f s :
  list_ascii_of_string (Py.on_chars f s) = f (list_ascii_of_string s).
Proof. apply list_ascii_of_string_of_list_ascii. Qed.

Lemma truthy_true s : Py.truthy s = true ↔ s ≠ "".
Proof.
  unfold Py.truthy. destruct (String.eqb_spec s ""); simpl; split; congruence.
Qed.

Lemma truthy_false s : Py.truthy s = false ↔ s = "".
Proof.
  unfold Py.truthy. destruct (String.eqb_spec s ""); simpl; split; congruence.
Qed.

Lemma or_str_nonempty x d : d ≠ "" → Py.or_str x d ≠ "".
Proof.
  intros Hd. unfold Py.or_str. destruct x as [s|]; [|done].
  destruct (Py.truthy s) eqn:E; [by apply truthy_true|done].
Qed.

Lemma count_tokens_inside_le l :
  Py.count_tokens true l ≤ Py.count_tokens false l.
Proof. destruct l as [|c r]; simpl; [done|]. destruct (Py.isspace c); lia. Qed.

Lemma count_tokens_outside_le l :
  Py.count_tokens false l ≤ S (Py.count_tokens true l).
Proof. destruct l as [|c r]; simpl; [lia|]. destruct (Py.isspace c); lia. Qed.

(** A prefix has no more tokens than the whole. *)
Lemma count_tokens_prefix b l1 l2 :
  Py.count_tokens b l1 ≤ Py.count_tokens b (l1 ++ l2).
Proof.
  revert b. induction l1 as [|c r IH]; intros b; simpl; [lia|].
  destruct (Py.isspace c).
  - apply IH.
  - specialize (IH true). lia.
Qed.

(** A suffix has no more tokens than the whole. *)
Lemma count_tokens_suffix l1 l2 :
  (∀ b, Py.count_tokens true l2 ≤ Py.count_tokens b (l1 ++ l2))
  ∧ Py.count_tokens false l2 ≤ Py.count_tokens false (l1 ++ l2).
Proof.
  induction l1 as [|c r [IH1 IH2]]; simpl.
  - split; [|lia]. intros []; [lia|apply count_tokens_inside_le].
  - pose proof (count_tokens_inside_le l2).
    pose proof (count_tokens_outside_le l2).
    pose proof (IH1 true).
    destruct (Py.isspace c); split; try intros b; try lia.
Qed.

Lemma dropwhile_suffix p l : ∃ pre, l = pre ++ Py.dropwhile p l.
Proof.
  induction l as [|c r [pre IH]]; simpl.
  - by exists [].
  - destruct (p c).
    + exists (c :: pre). simpl. by f_equal.
    + by exists [].
Qed.

Lemma rstrip_by_prefix p l : ∃ suf, l = Py.rstrip_by p l ++ suf.
Proof.
  unfold Py.rstrip_by.
  destruct (dropwhile_suffix p (rev l)) as [pre H].
  exists (rev pre).
  rewrite <- rev_app_distr, <- H. by rewrite rev_involutive.
Qed.

Lemma count_tokens_lstrip p l :
  Py.count_tokens false (Py.lstrip_by p l) ≤ Py.count_tokens false l.
Proof.
  unfold Py.lstrip_by. destruct (dropwhile_suffix p l) as [pre H].
  rewrite H at 2. apply count_tokens_suffix.
Qed.

Lemma count_tokens_rstrip p l :
  Py.count_tokens false (Py.rstrip_by p l) ≤ Py.count_tokens false l.
Proof.
  destruct (rstrip_by_prefix p l) as [suf H].
  rewrite H at 2. apply count_tokens_prefix.
Qed.

Lemma count_tokens_strip p l :
  Py.count_tokens false (Py.strip_by p l) ≤ Py.count_tokens false l.
Proof.
  unfold Py.strip_by.
  etransitivity; [apply count_tokens_rstrip|apply count_tokens_lstrip].
Qed.

(** ** Whitespace after the collapse *)

Lemma single_spaced_collapse b l : single_spaced (Re.collapse_from b l).
Proof.
  unfold single_spaced. revert b.
  induction l as [|c r IH]; intros b; simpl; [constructor|].
  destruct (Py.isspace c) eqn:E.
  - destruct b; simpl; [apply IH|]. constructor; [done|apply IH].
  - constructor; [congruence|apply IH].
Qed.

Lemma single_spaced_dropwhile p l :
  single_spaced l → single_spaced (Py.dropwhile p l).
Proof.
  unfold single_spaced. destruct (dropwhile_suffix p l) as [pre H].
  intros Hl. rewrite H in Hl. by apply Forall_app in Hl as [_ ?].
Qed.

Lemma single_spaced_strip p l :
  single_spaced l → single_spaced (Py.strip_by p l).
Proof.
  unfold Py.strip_by, Py.lstrip_by. intros Hl.
  apply (single_spaced_dropwhile p) in Hl.
  destruct (rstrip_by_prefix p (Py.dropwhile p l)) as [suf H].
  unfold single_spaced in *. rewrite H in Hl.
  by apply Forall_app in Hl as [? _].
Qed.

(** ** [split(" ")] and [" ".join] *)

Lemma split_space_nonempty l : Py.split_space l ≠ [].
Proof.
  destruct l as [|c r]; simpl; [done|].
  destruct (Ascii.eqb c " "); [done|].
  by destruct (Py.split_space r).
Qed.

Lemma join_split l : Py.join_space (Py.split_space l) = l.
Proof.
  induction l as [|c r IH]; [done|]. simpl.
  destruct (Ascii.eqb_spec c " ") as [->|Hc].
  - pose proof (split_space_nonempty r) as Hne.
    destruct (Py.split_space r) as [|w ws] eqn:E; [done|].
    simpl in *. by rewrite IH.
  - pose proof (split_space_nonempty r) as Hne.
    destruct (Py.split_space r) as [|w ws] eqn:E; [done|].
    destruct ws as [|w' ws']; simpl in *; by rewrite <- IH.
Qed.

Lemma split_space_no_space l :
  single_spaced l → Forall no_space (Py.split_space l).
Proof.
  unfold single_spaced, no_space.
  induction l as [|c r IH]; intros Hl; simpl.
  - repeat constructor.
  - apply Forall_cons in Hl as [Hc Hr]. specialize (IH Hr).
    destruct (Ascii.eqb_spec c " ") as [->|Hne].
    + constructor; [constructor|done].
    + assert (Py.isspace c = false) as Hs.
      { destruct (Py.isspace c); [by specialize (Hc eq_refl)|done]. }
      destruct (Py.split_space r) as [|w ws].
      * repeat constructor. done.
      * apply Forall_cons in IH as [Hw Hws].
        constructor; [by constructor|done].
Qed.

Lemma count_tokens_no_space l :
  no_space l → Py.count_tokens true l = 0 ∧ Py.count_tokens false l ≤ 1.
Proof.
  unfold no_space. induction 1 as [|c r Hc _ [IH1 IH2]]; simpl; [lia|].
  rewrite Hc. lia.
Qed.

Lemma count_tokens_word_then_space w rest :
  no_space w →
  Py.count_tokens true (w ++ " "%char :: rest) = Py.count_tokens false rest
  ∧ Py.count_tokens false (w ++ " "%char :: rest) ≤ S (Py.count_tokens false rest).
Proof.
  unfold no_space. induction 1 as [|c r Hc _ [IH1 IH2]]; simpl; [lia|].
  rewrite Hc. lia.
Qed.

(** Joined words hold at most one token each. *)
Lemma count_tokens_join ws :
  Forall no_space ws →
  Py.count_tokens false (Py.join_space ws) ≤ length ws.
Proof.
  induction 1 as [|w ws Hw Hws IH]; simpl; [lia|].
  destruct ws as [|w' ws'].
  - apply count_tokens_no_space in Hw. simpl. lia.
  - pose proof (count_tokens_word_then_space w (Py.join_space (w' :: ws')) Hw).
    simpl in *. lia.
Qed.

Lemma length_slice_to {A} (k : Z) (l : list A) :
  (0 ≤ k)%Z → (Z.of_nat (length (Py.slice_to k l)) ≤ k)%Z.
Proof.
  intros Hk. unfold Py.slice_to.
  destruct (Z.leb_spec 0 k); [|lia]. rewrite length_take. lia.
Qed.

Lemma Forall_slice_to {A} (P : A → Prop) (k : Z) (l : list A) :
  Forall P l → Forall P (Py.slice_to k l).
Proof. intros H. unfold Py.slice_to. destruct (0 <=? k)%Z; by apply Forall_take. Qed.

(** After the cut of lines 161-163 a single-spaced text holds at most
    [max_words] tokens. *)
Lemma token_count_limit_words (mw : Z) (text : string) :
  (0 ≤ mw)%Z →
  single_spaced (list_ascii_of_string text) →
  (Z.of_nat (Py.token_count (limit_words mw text)) ≤ mw)%Z.
Proof.
  intros Hmw Hsp. unfold limit_words, Py.token_count.
  pose proof (split_space_no_space _ Hsp) as Hws.
  destruct (Z.ltb_spec mw (Z.of_nat (length (Py.split_space (list_ascii_of_string text))))) as [Hlt|Hge].
  - rewrite list_ascii_of_string_of_list_ascii.
    pose proof (count_tokens_join _ (Forall_slice_to _ mw _ Hws)).
    pose proof (length_slice_to mw (Py.split_space (list_ascii_of_string text)) Hmw).
    lia.
  - pose proof (count_tokens_join _ Hws) as H.
    rewrite join_split in H. lia.
Qed.

(** ** The substitutions on examples *)

Example sub_fences_example :
  Re.sub_fences "a``````b```` x ``` y ```" = "a b  y ```".
Proof. reflexivity. Qed.

Example sub_headers_example :
  Re.sub_headers ("# A" +:+ LF +:+ "b # c" +:+ LF +:+ "##" +:+ LF +:+ "#d")
  = "A" +:+ LF +:+ "b # c" +:+ LF +:+ "d".
Proof. reflexivity. Qed.

Example collapse_ws_example :
  Re.collapse_ws ("a  b" +:+ LF +:+ " c ") = "a b c ".
Proof. reflexivity. Qed.

(** ** The title *)

Lemma heuristic_title_nonempty msgs mw : _heuristic_title msgs mw ≠ "".
Proof. unfold _heuristic_title. by apply or_str_nonempty. Qed.

(** The heuristic title is the literal [New Chat] or holds at most
    [max_words] tokens. *)
Lemma heuristic_title_tokens msgs (mw : Z) :
  (0 ≤ mw)%Z →
  _heuristic_title msgs mw = NEW_CHAT
  ∨ (Z.of_nat (Py.token_count (_heuristic_title msgs mw)) ≤ mw)%Z.
Proof.
  intros Hmw. unfold _heuristic_title.
  set (t2 := Re.sub_headers _).
  set (t3 := Py.strip (Re.collapse_ws t2)).
  assert (single_spaced (list_ascii_of_string t3)) as Hsp.
  { unfold t3, Py.strip, Re.collapse_ws. rewrite !chars_on_chars.
    apply single_spaced_strip, single_spaced_collapse. }
  pose proof (token_count_limit_words mw t3 Hmw Hsp) as Hlim.
  set (t4 := limit_words mw t3) in *.
  set (t6 := Re.sub_trailing (Py.strip_chars QUOTE_CHARS t4)).
  assert (Py.token_count t6 ≤ Py.token_count t4) as Hle.
  { unfold t6, Re.sub_trailing, Py.strip_chars, Py.token_count.
    rewrite !chars_on_chars.
    etransitivity; [apply count_tokens_rstrip|apply count_tokens_strip]. }
  unfold Py.or_str. destruct (Py.truthy t6); [right; lia|by left].
Qed.

Lemma title_boost_nonempty env req txt :
  title_boost env req = Some txt → txt ≠ "".
Proof.
  unfold title_boost. intros H.
  repeat match type of H with
         | match ?x with _ => _ end = _ => destruct x eqn:?; try done
         | (if ?x then _ else _) = _ => destruct x eqn:?; try done
         end.
  injection H as <-. by apply truthy_true.
Qed.

Lemma generate_title_cases env req :
  generate_title env req = _heuristic_title (messages req) (max_words req)
  ∨ (OLLAMA_AVAILABLE env = true
     ∧ title_boost env req = Some (generate_title env req)).
Proof.
  unfold generate_title. destruct (OLLAMA_AVAILABLE env); [|by left].
  destruct (title_boost env req); [by right|by left].
Qed.

(** ** The session store *)

Lemma get_session_history_lookup sid σ :
  memory_store.get_session_history sid σ !! sid = Some (default [] (σ !! sid)).
Proof.
  unfold memory_store.get_session_history.
  destruct (σ !! sid) as [log|] eqn:E; simpl; [done|].
  by rewrite lookup_insert_eq.
Qed.

Lemma get_session_history_other sid k σ :
  k ≠ sid → memory_store.get_session_history sid σ !! k = σ !! k.
Proof.
  intros Hk. unfold memory_store.get_session_history.
  destruct (σ !! sid); [done|]. by rewrite lookup_insert_ne.
Qed.

Lemma add_message_lookup sid m σ log :
  σ !! sid = Some log → add_message sid m σ !! sid = Some (log ++ [m]).
Proof. intros H. unfold add_message. rewrite H. by rewrite lookup_insert_eq. Qed.

Lemma add_message_other sid k m σ :
  k ≠ sid → add_message sid m σ !! k = σ !! k.
Proof.
  intros Hk. unfold add_message.
  destruct (σ !! sid); [|done]. by rewrite lookup_insert_ne.
Qed.

Lemma seeded_lookup sid hs σ :
  seeded sid hs σ !! sid = Some (default [] (σ !! sid) ++ map to_message hs).
Proof.
  unfold seeded.
  assert (∀ τ log, τ !! sid = Some log →
            foldl (fun s h => add_message sid (to_message h) s) τ hs !! sid
            = Some (log ++ map to_message hs)) as Hfold.
  { induction hs as [|h hs IH]; intros τ log Hτ; simpl.
    - by rewrite app_nil_r.
    - rewrite (IH _ (log ++ [to_message h])).
      + by rewrite <- app_assoc.
      + by apply add_message_lookup. }
  apply Hfold, get_session_history_lookup.
Qed.

Lemma seeded_other sid k hs σ :
  k ≠ sid → seeded sid hs σ !! k = σ !! k.
Proof.
  intros Hk. unfold seeded.
  assert (∀ τ, foldl (fun s h => add_message sid (to_message h) s) τ hs !! k
               = τ !! k) as Hfold.
  { induction hs as [|h hs IH]; intros τ; simpl; [done|].
    rewrite IH. by apply add_message_other. }
  rewrite Hfold. by apply get_session_history_other.
Qed.

(** ** Runs of the generator *)

Lemma for_each_modify {A} (l : list A) (f : A → Store → Store) σ :
  for_each l (fun x => modify (f x)) σ
  = ([], foldl (fun s x => f x s) σ l, Return tt).
Proof.
  revert σ. induction l as [|x l IH]; intros σ; simpl; [done|].
  unfold bind, modify. by rewrite IH.
Qed.

(** Seeding emits nothing and never raises. *)
Lemma seed_history_run env req sid σ :
  seed_history env req sid σ = ([], store_after_seed env req sid σ, Return tt).
Proof.
  unfold seed_history, store_after_seed, try_except, bind, get_session_history.
  destruct (lcel_importable env); simpl; [|done].
  destruct (history req) as [[|h hs]|]; simpl; try done.
  rewrite for_each_modify. by unfold seeded.
Qed.

Lemma for_each_chunks cs σ :
  for_each cs (fun chunk =>
                 let txt := Py.or_str (chunk_content chunk) "" in
                 if negb (Py.truthy txt) then ret tt else yield (EToken txt)) σ
  = (token_events cs, σ, Return tt).
Proof.
  revert σ. induction cs as [|c cs IH]; intros σ; simpl; [done|].
  unfold bind. destruct (Py.truthy _); simpl; by rewrite IH.
Qed.

Lemma event_stream_fallback env req σ :
  OLLAMA_AVAILABLE env = false →
  event_stream env req σ = ([EToken FALLBACK_TEXT; EDone], σ, Return tt).
Proof. intros H. unfold event_stream. by rewrite H. Qed.

Lemma event_stream_no_handle env req σ e :
  OLLAMA_AVAILABLE env = true →
  get_llm env (Some (requested_model req)) true = Raise e →
  event_stream env req σ
  = ([EError (str_exc e); EDone],
     store_after_seed env req (session_id req) σ, Return tt).
Proof.
  intros Hav Hllm. unfold event_stream. rewrite Hav. simpl.
  unfold bind at 1. rewrite seed_history_run.
  unfold try_finally, try_except, bind, call. by rewrite Hllm.
Qed.

Lemma event_stream_handle env req σ llm :
  OLLAMA_AVAILABLE env = true →
  get_llm env (Some (requested_model req)) true = Return llm →
  event_stream env req σ
  = (EMeta (Py.or_str (Some (llm_model llm)) (requested_model req))
           (length (default [] (history req)))
       :: token_events (chunks (stream env llm (build_messages req)))
       ++ match failure (stream env llm (build_messages req)) with
          | Some e => [EError (str_exc e)]
          | None => []
          end
       ++ [EDone],
     store_after_seed env req (session_id req) σ, Return tt).
Proof.
  intros Hav Hllm. unfold event_stream. rewrite Hav. simpl.
  unfold bind at 1. rewrite seed_history_run.
  unfold try_finally, try_except, for_stream, bind, call. rewrite Hllm.
  simpl. rewrite for_each_chunks.
  destruct (failure _); unfold raise, ret; simpl;
    by rewrite ?app_nil_r, <- ?app_assoc.
Qed.

Lemma token_events_tokens cs : Forall is_token (token_events cs).
Proof.
  induction cs as [|c cs IH]; simpl; [constructor|].
  destruct (Py.truthy _); simpl; [constructor|]; done.
Qed.

Lemma done_not_token_event cs : EDone ∉ token_events cs.
Proof.
  intros H. pose proof (token_events_tokens cs) as Hall.
  rewrite Forall_forall in Hall. by apply Hall in H.
Qed.

(** ** The streaming endpoint ends with [done] *)

(** C1.  Every event sequence of the streaming endpoint is some events
    followed by [done], with no [done] among the events before it: the last
    event is the only [done] and nothing follows it.  This holds on the
    fallback path, on normal completion and on the error path alike, and
    the generator itself ends without an exception. *)
Theorem event_stream_ends_with_done env req σ :
  ∃ pre,
    events env req σ = pre ++ [EDone]
    ∧ (EDone ∉ pre)
    ∧ (event_stream env req σ).2 = Return tt.
Proof.
  unfold events.
  destruct (OLLAMA_AVAILABLE env) eqn:Hav.
  - destruct (get_llm env (Some (requested_model req)) true) as [llm|e] eqn:Hllm.
    + rewrite (event_stream_handle env req σ llm Hav Hllm). simpl.
      eexists (_ :: _ ++ _). split; [|split; [|done]].
      * simpl. by rewrite <- app_assoc.
      * rewrite not_elem_of_cons, not_elem_of_app.
        split; [done|]. split; [apply done_not_token_event|].
        destruct (failure _); [|apply not_elem_of_nil].
        rewrite not_elem_of_cons. split; [done|apply not_elem_of_nil].
    + rewrite (event_stream_no_handle env req σ e Hav Hllm). simpl.
      exists [EError (str_exc e)]. split; [done|]. split; [|done].
      rewrite not_elem_of_cons. split; [done|apply not_elem_of_nil].
  - rewrite (event_stream_fallback env req σ Hav). simpl.
    exists [EToken FALLBACK_TEXT]. split; [done|]. split; [|done].
    rewrite not_elem_of_cons. split; [done|apply not_elem_of_nil].
Qed.

(** ** Assembling the model input *)

Lemma length_last_n {A} (n : nat) (l : list A) :
  length (Py.last_n n l) = min (length l) n.
Proof. unfold Py.last_n. rewrite length_drop. lia. Qed.

(** C3.  The message list handed to the model is: the [[SYSTEM]] note when
    the system text is non-empty after trimming, then the last ten history
    entries, each tagged assistant when its lower-cased role is the word
    assistant and user otherwise, then the new message as a user message.
    Its length is (1 or 0) + min(len(history), 10) + 1. *)
Theorem build_messages_spec req :
  let sys := Py.or_str (system req) "" in
  let hs := default [] (history req) in
  let kept := Py.last_n 10 hs in
  build_messages req
  = (if Py.truthy (Py.strip sys) then [HumanMessage ("[SYSTEM]" +:+ LF +:+ sys)] else [])
    ++ map to_message kept ++ [HumanMessage (message req)]
  ∧ length (build_messages req)
    = (if Py.truthy (Py.strip sys) then 1 else 0) + min (length hs) 10 + 1
  ∧ (∃ dropped, hs = dropped ++ kept ∧ length kept = min (length hs) 10)
  ∧ (∀ h, to_message h
          = if String.eqb (Py.lower (role h)) "assistant"
            then AIMessage (content h) else HumanMessage (content h))
  ∧ last (build_messages req) = Some (HumanMessage (message req)).
Proof.
  intros sys hs kept.
  assert (build_messages req
          = (if Py.truthy (Py.strip sys)
             then [HumanMessage ("[SYSTEM]" +:+ LF +:+ sys)] else [])
            ++ map to_message kept ++ [HumanMessage (message req)]) as Heq.
  { unfold build_messages, kept, hs, sys.
    by destruct (history req) as [[|h l]|]. }
  split; [done|]. rewrite Heq. split; [|split; [|split]].
  - rewrite !length_app, length_map. unfold kept. rewrite length_last_n.
    destruct (Py.truthy _); simpl; lia.
  - exists (take (length hs - 10) hs). split.
    + unfold kept, Py.last_n. by rewrite take_drop.
    + apply length_last_n.
  - done.
  - by rewrite app_assoc, last_snoc.
Qed.

(** ** Scenario D *)

(** A single message with text in it is the source of the title, whatever
    its role. *)
Lemma select_text_single r c :
  Py.truthy (Py.strip c) = true →
  select_text [ {| role := r; content := c |} ] = c.
Proof.
  intros Hc. unfold select_text.
  change (rev [ {| role := r; content := c |} ])
    with [ {| role := r; content := c |} ].
  unfold List.find. cbn [role content]. rewrite Hc.
  destruct (String.eqb (Py.lower r) "user"); cbn [andb role content].
  - by destruct (Py.truthy c).
  - done.
Qed.

(** C4, as the code has it.  On the single message of Scenario D with
    [max_words = 6], whatever its role, the heuristic removes the fenced
    block and the heading marker [# ] and keeps the heading's text: the
    title is [Heading Deploy the service]. *)
Theorem heuristic_title_scenario_D r :
  _heuristic_title [ {| role := r; content := SCENARIO_D |} ] 6
  = "Heading Deploy the service".
Proof.
  unfold _heuristic_title. rewrite select_text_single; by vm_compute.
Qed.

(** C4 as stated fails: the title of Scenario D is not
    [Deploy the service]. *)
Lemma heuristic_title_scenario_D_keeps_heading :
  _heuristic_title [ {| role := "user"; content := SCENARIO_D |} ] 6
  ≠ "Deploy the service".
Proof. vm_compute. discriminate. Qed.

(** ** The title endpoint *)

(** C5, as the code has it.  The title is never empty.  It is the heuristic
    title unless the availability flag is set and the boost returns a text,
    in which case it is that text.  For [max_words] of at least 2 the
    heuristic title holds at most [max_words] whitespace-delimited tokens. *)
Theorem generate_title_spec env req :
  generate_title env req ≠ ""
  ∧ (generate_title env req = _heuristic_title (messages req) (max_words req)
     ∨ (OLLAMA_AVAILABLE env = true
        ∧ title_boost env req = Some (generate_title env req)))
  ∧ ((2 ≤ max_words req)%Z →
     (Z.of_nat (Py.token_count (_heuristic_title (messages req) (max_words req)))
      ≤ max_words req)%Z).
Proof.
  split; [|split].
  - destruct (generate_title_cases env req) as [->|[_ H]].
    + apply heuristic_title_nonempty.
    + by apply title_boost_nonempty in H.
  - apply generate_title_cases.
  - intros Hmw.
    destruct (heuristic_title_tokens (messages req) (max_words req)) as [->|H];
      [lia| |done].
    change (Py.token_count NEW_CHAT) with 2. lia.
Qed.

Lemma generate_title_spec_witness :
  generate_title env_bare (title_request "Explain binary search" 6)
  = "Explain binary search"
  ∧ (Z.of_nat (Py.token_count
                 (_heuristic_title
                    (messages (title_request "Explain binary search" 6)) 6))
     ≤ 6)%Z.
Proof.
  split; [reflexivity|].
  apply (generate_title_spec env_bare (title_request "Explain binary search" 6)).
  simpl. lia.
Defined.

(** C5 as stated fails on the boost: with [max_words = 6] the ten-word first
    line of the model's reply is returned whole. *)
Lemma generate_title_boost_exceeds_max_words :
  generate_title env_verbose (title_request "hi" 6)
  = "A Very Long Title With Too Many Words In It"
  ∧ ¬ (generate_title env_verbose (title_request "hi" 6) ≠ ""
       ∧ (Z.of_nat (Py.token_count (generate_title env_verbose (title_request "hi" 6)))
          ≤ max_words (title_request "hi" 6))%Z).
Proof.
  split; [by vm_compute|].
  intros [_ H]. vm_compute in H. by apply H.
Qed.

(** Below 2 the bound can fail on the heuristic as well: the literal
    [New Chat] has two tokens. *)
Example heuristic_title_one_word :
  _heuristic_title [ {| role := "user"; content := "?!" |} ] 1 = "New Chat"
  ∧ Py.token_count "New Chat" = 2.
Proof. by vm_compute. Qed.

Example heuristic_title_negative_max_words :
  _heuristic_title [ {| role := "user"; content := "a b c" |} ] (-1) = "a b".
Proof. by vm_compute. Qed.

(** ** Occurrences in strings *)

Lemma string_app_cons a s t : String a s +:+ t = String a (s +:+ t).
Proof. reflexivity. Qed.

Lemma string_app_nil_r s : s +:+ "" = s.
Proof. induction s as [|a s IH]; [done|]. by rewrite string_app_cons, IH. Qed.

Lemma string_app_assoc s t u : (s +:+ t) +:+ u = s +:+ t +:+ u.
Proof. induction s as [|a s IH]; [done|]. by rewrite !string_app_cons, IH. Qed.

Lemma occurs_in_refl s : occurs_in s s.
Proof. exists "", "". by rewrite string_app_nil_r. Qed.

Lemma occurs_in_app_l sub s t : occurs_in sub s → occurs_in sub (t +:+ s).
Proof.
  intros (pre & post & ->). exists (t +:+ pre), post.
  by rewrite string_app_assoc.
Qed.

Lemma occurs_in_app_r sub s t : occurs_in sub s → occurs_in sub (s +:+ t).
Proof.
  intros (pre & post & ->). exists pre, (post +:+ t).
  by rewrite !string_app_assoc.
Qed.

Lemma occurs_in_concat sep x (l : list string) :
  x ∈ l → occurs_in x (String.concat sep l).
Proof.
  induction l as [|y l IH]; [by intros ?%elem_of_nil|].
  intros [->|Hx]%elem_of_cons; simpl.
  - destruct l; [apply occurs_in_refl|].
    apply occurs_in_app_r, occurs_in_refl.
  - destruct l as [|z l]; [by apply elem_of_nil in Hx|].
    by apply occurs_in_app_l, occurs_in_app_l, IH.
Qed.

(** ** The model resolver *)

Lemma find_first {A} (f : A → bool) (l : list A) x :
  List.find f l = Some x →
  ∃ before after,
    l = before ++ x :: after ∧ f x = true ∧ ∀ y, y ∈ before → f y = false.
Proof.
  induction l as [|a l IH]; simpl; [done|].
  destruct (f a) eqn:Ha.
  - intros [= ->]. exists [], l. split; [done|]. split; [done|].
    by intros y ?%elem_of_nil.
  - intros (before & after & -> & Hx & Hb)%IH.
    exists (a :: before), after. split; [done|]. split; [done|].
    intros y [->|Hy]%elem_of_cons; auto.
Qed.

Lemma find_nothing {A} (f : A → bool) (l : list A) :
  List.find f l = None → ∀ y, y ∈ l → f y = false.
Proof.
  induction l as [|a l IH]; simpl; [by intros _ y ?%elem_of_nil|].
  destruct (f a) eqn:Ha; [done|].
  intros Hl y [->|Hy]%elem_of_cons; auto.
Qed.

Lemma select_model_not_installed (requested : string) names :
  requested ≠ "" →
  requested ∉ names →
  provider_ollama.select_model (Some requested) names
  = Raise (RuntimeError (provider_ollama.not_installed requested names)).
Proof.
  intros Hne%truthy_true Hnot. unfold provider_ollama.select_model.
  rewrite Hne. by destruct (decide (requested ∈ names)).
Qed.

Lemma not_installed_mentions requested names :
  let msg := provider_ollama.not_installed requested names in
  occurs_in requested msg
  ∧ occurs_in (Py.repr_list names) msg
  ∧ ∀ n, n ∈ names → occurs_in (Py.repr_str n) msg.
Proof.
  intros msg.
  assert (occurs_in (Py.repr_list names) msg) as Hlist.
  { unfold msg, provider_ollama.not_installed.
    do 5 apply occurs_in_app_l. apply occurs_in_refl. }
  split; [|split; [done|]].
  - unfold msg, provider_ollama.not_installed.
    apply occurs_in_app_l, occurs_in_app_r, occurs_in_refl.
  - intros n Hn. destruct Hlist as (pre & post & ->).
    apply occurs_in_app_l, occurs_in_app_r.
    unfold Py.repr_list.
    apply occurs_in_app_l, occurs_in_app_r, occurs_in_concat.
    by apply list_elem_of_fmap_2.
Qed.

(** C2.  For a non-empty requested identifier that is not among the
    installed names, the resolver (lines 48-60) fails with the
    [RuntimeError] of line 52; its message contains the requested
    identifier, the printed list of installed names, and in it every
    installed name as Python prints it.  [get_llm] then never returns a
    handle, for this or any other model, and past its import guard it
    raises that very error. *)
Theorem get_llm_model_not_installed (requested : string) (names : list string) :
  requested ≠ "" →
  requested ∉ names →
  let msg := provider_ollama.not_installed requested names in
  provider_ollama.select_model (Some requested) names = Raise (RuntimeError msg)
  ∧ occurs_in requested msg
  ∧ occurs_in (Py.repr_list names) msg
  ∧ (∀ n, n ∈ names → occurs_in (Py.repr_str n) msg)
  ∧ ∀ env streaming,
      provider_ollama.list_models env = names →
      (∃ e, provider_ollama.get_llm env (Some requested) streaming = Raise e)
      ∧ (provider_ollama.OLLAMA_AVAILABLE env = true →
         provider_ollama.get_llm env (Some requested) streaming
         = Raise (RuntimeError msg)).
Proof.
  intros Hne Hnot msg.
  pose proof (select_model_not_installed requested names Hne Hnot) as Hsel.
  destruct (not_installed_mentions requested names) as (H1 & H2 & H3).
  split; [done|]. split; [done|]. split; [done|]. split; [done|].
  intros env streaming Hnames. unfold provider_ollama.get_llm.
  rewrite Hnames, Hsel. split.
  - destruct (provider_ollama.OLLAMA_AVAILABLE env); by eexists.
  - by intros ->.
Qed.

(** Scenario B: [gpt-99] asked for, [llama3.1] and [mistral:7b] installed. *)
Lemma get_llm_model_not_installed_witness :
  provider_ollama.select_model (Some "gpt-99") ["llama3.1"; "mistral:7b"]
  = Raise (RuntimeError
      ("Requested model 'gpt-99' is not installed in Ollama. "
       +:+ "Install it (e.g., 'ollama pull gpt-99') or select an installed "
       +:+ "model: ['llama3.1', 'mistral:7b']")).
Proof.
  assert ("gpt-99" ≠ "") as H1 by done.
  assert ("gpt-99" ∉ ["llama3.1"; "mistral:7b"]) as H2.
  { rewrite !not_elem_of_cons. repeat split; try done. apply not_elem_of_nil. }
  destruct (get_llm_model_not_installed "gpt-99" ["llama3.1"; "mistral:7b"] H1 H2)
    as [-> _].
  reflexivity.
Defined.

(** C6.  When no model is asked for ([None] or the empty string) the
    resolver (lines 48-60) does not fail, whatever is installed: it selects
    the first candidate of the fixed list that is installed, else the first
    installed name, else [llama3.1].  Past its import guard [get_llm]
    returns the handle of that model. *)
Theorem get_llm_default_choice (model : option string) (names : list string) :
  model = None ∨ model = Some "" →
  provider_ollama.CANDIDATES
  = ["llama3.1:8b"; "llama3.1"; "llama3:8b"; "qwen2.5:7b"; "mistral:7b"]
  ∧ ∃ selected,
      provider_ollama.select_model model names = Return selected
      ∧ ((∃ before after,
             provider_ollama.CANDIDATES = before ++ selected :: after
             ∧ selected ∈ names
             ∧ ∀ c, c ∈ before → c ∉ names)
         ∨ ((∀ c, c ∈ provider_ollama.CANDIDATES → c ∉ names)
            ∧ ∃ rest, names = selected :: rest)
         ∨ (names = [] ∧ selected = "llama3.1"))
      ∧ ∀ env streaming,
          provider_ollama.list_models env = names →
          provider_ollama.OLLAMA_AVAILABLE env = true →
          provider_ollama.get_llm env model streaming
          = Return {| llm_model := selected; llm_streaming := streaming |}.
Proof.
  intros Hmodel. split; [done|].
  assert (provider_ollama.select_model model names
          = Return (provider_ollama.default_model names)) as Hsel.
  { by destruct Hmodel as [-> | ->]. }
  exists (provider_ollama.default_model names). split; [done|]. split.
  - unfold provider_ollama.default_model.
    destruct (List.find _ provider_ollama.CANDIDATES) as [cand|] eqn:Hfind.
    + left. apply find_first in Hfind as (before & after & Heq & Hin & Hb).
      exists before, after. split; [done|]. split.
      * by apply bool_decide_eq_true in Hin.
      * intros c Hc. specialize (Hb c Hc). by apply bool_decide_eq_false in Hb.
    + right. pose proof (find_nothing _ _ Hfind) as Hnone.
      destruct names as [|n rest] eqn:Hnames.
      * by right.
      * left. split; [|by exists rest].
        intros c Hc. specialize (Hnone c Hc).
        by apply bool_decide_eq_false in Hnone.
  - intros env streaming Hnames Hav.
    unfold provider_ollama.get_llm. by rewrite Hav, Hnames, Hsel.
Qed.

(** With only [mistral:7b] installed and no model asked for, the handle is
    for [mistral:7b]; with nothing installed it is for [llama3.1]. *)
Lemma get_llm_default_choice_witness :
  provider_ollama.get_llm env_only_mistral None false
  = Return {| llm_model := "mistral:7b"; llm_streaming := false |}
  ∧ provider_ollama.select_model (Some "") [] = Return "llama3.1"
  ∧ provider_ollama.CANDIDATES
    = ["llama3.1:8b"; "llama3.1"; "llama3:8b"; "qwen2.5:7b"; "mistral:7b"].
Proof.
  split; [reflexivity|]. split; [reflexivity|].
  apply (get_llm_default_choice None ["mistral:7b"]). by left.
Defined.

(** ** Failures while streaming *)

(** C8.  When the flag of [app.py] is set and either [get_llm] raises [e] or
    the stream of the handle raises [e], the events are: events that are
    neither [error] nor [done], then one [error] carrying [str(e)], then
    [done]; the generator itself ends without an exception. *)
Theorem stream_failure_becomes_error_event env req σ e :
  OLLAMA_AVAILABLE env = true →
  get_llm env (Some (requested_model req)) true = Raise e
  ∨ (∃ llm, get_llm env (Some (requested_model req)) true = Return llm
            ∧ failure (stream env llm (build_messages req)) = Some e) →
  (event_stream env req σ).2 = Return tt
  ∧ ∃ pre,
      events env req σ = pre ++ [EError (str_exc e); EDone]
      ∧ Forall (fun ev => is_error ev = false ∧ ev ≠ EDone) pre.
Proof.
  intros Hav [Hraise | (llm & Hllm & Hfail)]; unfold events.
  - rewrite (event_stream_no_handle env req σ e Hav Hraise).
    split; [done|]. by exists [].
  - rewrite (event_stream_handle env req σ llm Hav Hllm), Hfail.
    split; [done|]. simpl.
    eexists (_ :: token_events _). split; [done|].
    constructor; [done|].
    eapply Forall_impl; [apply token_events_tokens|].
    by intros [].
Qed.

(** [llama3.1] is asked for by default and only [mistral:7b] is installed:
    handle acquisition fails.  With [mistral:7b] asked for the stream breaks
    after one token. *)
Lemma stream_failure_becomes_error_event_witness :
  events env_only_mistral (chat_request "hello") ∅
  = [EError (provider_ollama.not_installed "llama3.1" ["mistral:7b"]); EDone]
  ∧ events env_only_mistral (with_model (Some "mistral:7b") (chat_request "hello")) ∅
    = [EMeta "mistral:7b" 0; EToken "Hel"; EError "connection reset"; EDone]
  ∧ ∃ pre,
      events env_only_mistral (with_model (Some "mistral:7b") (chat_request "hello")) ∅
      = pre ++ [EError "connection reset"; EDone]
      ∧ Forall (fun ev => is_error ev = false ∧ ev ≠ EDone) pre.
Proof.
  split; [reflexivity|]. split; [reflexivity|].
  apply (stream_failure_becomes_error_event env_only_mistral
           (with_model (Some "mistral:7b") (chat_request "hello")) ∅
           (BackendError "connection reset")); [reflexivity|].
  right. eexists. split; reflexivity.
Defined.

(** ** The flag of [app.py] and the missing package *)

Lemma event_stream_missing_langchain_ollama env req σ :
  OLLAMA_AVAILABLE env = true →
  provider_importable env = true →
  langchain_ollama_importable env = false →
  events env req σ = [EError "langchain-ollama not installed"; EDone].
Proof.
  intros Hav Hprov Holl. unfold events.
  by rewrite (event_stream_no_handle env req σ
                (RuntimeError "langchain-ollama not installed") Hav);
    [|unfold get_llm, provider_ollama.get_llm, provider_ollama.OLLAMA_AVAILABLE;
      rewrite Hprov, Holl].
Qed.

(** C7 on the code.  With [langchain_core] installed and [langchain_ollama]
    not, the stream is an [error] event followed by [done], not the
    informational token of lines 248-251; that token is emitted when
    [langchain_core] is missing. *)
Theorem stream_without_langchain_ollama :
  langchain_ollama_importable env_core_only = false
  ∧ events env_core_only (chat_request "hello") ∅
    = [EError "langchain-ollama not installed"; EDone]
  ∧ langchain_ollama_importable env_bare = false
  ∧ events env_bare (chat_request "hello") ∅ = [EToken FALLBACK_TEXT; EDone].
Proof. repeat split; reflexivity. Qed.

(** ** The default model of the endpoints *)

Lemma get_llm_not_installed_raises env (requested : string) :
  requested ≠ "" →
  requested ∉ provider_ollama.list_models env →
  ∃ e, ∀ streaming, get_llm env (Some requested) streaming = Raise e.
Proof.
  intros Hne Hnot.
  unfold get_llm, provider_ollama.get_llm.
  rewrite (select_model_not_installed _ _ Hne Hnot).
  destruct (provider_importable env); [|by eexists].
  destruct (provider_ollama.OLLAMA_AVAILABLE env); by eexists.
Qed.

Lemma get_llm_explicit env (requested : string) streaming llm :
  requested ≠ "" →
  get_llm env (Some requested) streaming = Return llm →
  llm_model llm = requested ∧ requested ∈ provider_ollama.list_models env.
Proof.
  intros Hne%truthy_true.
  unfold get_llm, provider_ollama.get_llm, provider_ollama.select_model.
  destruct (provider_importable env); [|done].
  destruct (provider_ollama.OLLAMA_AVAILABLE env); simpl; [|done].
  rewrite Hne.
  destruct (decide (requested ∈ provider_ollama.list_models env)); [|done].
  by intros [= <-].
Qed.

(** [/chat] emits nothing, leaves the store as it is and does not raise. *)
Lemma chat_run env req σ : ∃ resp, chat env req σ = ([], σ, Return resp).
Proof.
  unfold chat. destruct (OLLAMA_AVAILABLE env); simpl; [|by eexists].
  unfold try_except, bind, call.
  destruct (get_llm env _ false) as [llm|e]; [|by eexists].
  destruct (invoke env llm _); by eexists.
Qed.

Lemma requested_model_nonempty req : requested_model req ≠ "".
Proof. unfold requested_model. by apply or_str_nonempty. Qed.

(** C9.  A request without a model, served with the flag of [app.py] set,
    is served as the same request asking for [llama3.1]: the factory gets
    that name as an explicit one.  When [llama3.1] is not installed, [/chat]
    answers with the error text and the stream is one [error] event and
    [done].  A handle is obtained only for [llama3.1] itself, and only when
    it is installed: the default choice of the resolver is never used. *)
Theorem default_model_is_explicit env req σ :
  model req = None →
  OLLAMA_AVAILABLE env = true →
  requested_model req = "llama3.1"
  ∧ chat env req σ = chat env (with_model (Some "llama3.1") req) σ
  ∧ event_stream env req σ = event_stream env (with_model (Some "llama3.1") req) σ
  ∧ ("llama3.1" ∉ provider_ollama.list_models env →
     ∃ e, get_llm env (Some "llama3.1") true = Raise e
          ∧ chat env req σ
            = ([], σ, Return {| output := "Error from model: " +:+ str_exc e;
                                model_entry := None |})
          ∧ events env req σ = [EError (str_exc e); EDone])
  ∧ (∀ streaming llm,
        get_llm env (Some (requested_model req)) streaming = Return llm →
        llm_model llm = "llama3.1"
        ∧ "llama3.1" ∈ provider_ollama.list_models env).
Proof.
  intros Hmodel Hav.
  assert (requested_model req = "llama3.1") as Hreq.
  { unfold requested_model. by rewrite Hmodel. }
  split; [done|]. split; [|split; [|split]].
  - unfold chat. by rewrite Hav, Hreq.
  - unfold event_stream. by rewrite Hav, Hreq.
  - intros Hnot.
    destruct (get_llm_not_installed_raises env "llama3.1") as [e He]; [done..|].
    exists e. split; [done|]. split.
    + unfold chat, try_except, bind, call. by rewrite Hav, Hreq, He.
    + unfold events. rewrite (event_stream_no_handle env req σ e Hav); [done|].
      by rewrite Hreq.
  - intros streaming llm. rewrite Hreq. by apply get_llm_explicit.
Qed.

(** Only [mistral:7b] is installed and the request names no model: the
    endpoints report that [llama3.1] is not installed, although the
    resolver's default choice would be [mistral:7b]. *)
Lemma default_model_is_explicit_witness :
  chat env_only_mistral (chat_request "hello") ∅
  = ([], ∅,
     Return {| output :=
                 "Error from model: Requested model 'llama3.1' is not "
                 +:+ "installed in Ollama. Install it (e.g., 'ollama pull "
                 +:+ "llama3.1') or select an installed model: ['mistral:7b']";
               model_entry := None |})
  ∧ events env_only_mistral (chat_request "hello") ∅
    = [EError ("Requested model 'llama3.1' is not installed in Ollama. "
               +:+ "Install it (e.g., 'ollama pull llama3.1') or select an "
               +:+ "installed model: ['mistral:7b']");
       EDone]
  ∧ provider_ollama.select_model None (provider_ollama.list_models env_only_mistral)
    = Return "mistral:7b"
  ∧ requested_model (chat_request "hello") = "llama3.1".
Proof.
  split; [reflexivity|]. split; [reflexivity|]. split; [reflexivity|].
  apply (default_model_is_explicit env_only_mistral (chat_request "hello") ∅);
    reflexivity.
Defined.

(** ** The default session *)

Lemma event_stream_store env req σ :
  (event_stream env req σ).1.2
  = if OLLAMA_AVAILABLE env
    then store_after_seed env req (session_id req) σ else σ.
Proof.
  destruct (OLLAMA_AVAILABLE env) eqn:Hav.
  - destruct (get_llm env (Some (requested_model req)) true) as [llm|e] eqn:Hllm.
    + by rewrite (event_stream_handle env req σ llm Hav Hllm).
    + by rewrite (event_stream_no_handle env req σ e Hav Hllm).
  - by rewrite (event_stream_fallback env req σ Hav).
Qed.

(** C10, as the code has it.  A request without [user_context], or whose
    [conversation_id] entry is missing, [None] or the empty string, has the
    session id [default] at both endpoints.  Its stream leaves every other
    session of the store as it was and, with the flag set and the store
    importable, appends the last ten history entries of the request to the
    log of [default].  [/chat] leaves the whole store as it was. *)
Theorem session_id_default env req σ :
  user_context req = None
  ∨ (∃ ctx, user_context req = Some ctx
            ∧ (ctx !! "conversation_id" = None
               ∨ ctx !! "conversation_id" = Some PNone
               ∨ ctx !! "conversation_id" = Some (PStr ""))) →
  session_id req = "default"
  ∧ (∀ k, k ≠ "default" → (event_stream env req σ).1.2 !! k = σ !! k)
  ∧ (OLLAMA_AVAILABLE env = true → lcel_importable env = true →
     (event_stream env req σ).1.2 !! "default"
     = Some (default [] (σ !! "default")
             ++ map to_message (Py.last_n 10 (default [] (history req)))))
  ∧ (chat env req σ).1.2 = σ.
Proof.
  intros Hctx.
  assert (session_id req = "default") as Hsid.
  { unfold session_id.
    destruct Hctx as [-> | (ctx & -> & Hentry)]; simpl.
    - by rewrite lookup_empty.
    - by destruct Hentry as [-> | [-> | ->]]. }
  split; [done|]. rewrite event_stream_store, Hsid. split; [|split].
  - intros k Hk. unfold store_after_seed.
    destruct (OLLAMA_AVAILABLE env); [|done].
    destruct (lcel_importable env); [|done].
    by apply seeded_other.
  - intros -> Hl. unfold store_after_seed. rewrite Hl. apply seeded_lookup.
  - by destruct (chat_run env req σ) as [resp ->].
Qed.

(** Two streams with an empty [conversation_id], one after the other, fill
    the one log of [default]. *)
Lemma session_id_default_witness :
  session_id (request_with_history "hello" []) = "default"
  ∧ (event_stream env_two_models
       (request_with_history "again" [ {| role := "assistant"; content := "a" |} ])
       (event_stream env_two_models
          (request_with_history "hello" [ {| role := "user"; content := "q" |} ])
          ∅).1.2).1.2 !! "default"
    = Some [HumanMessage "q"; AIMessage "a"].
Proof.
  split.
  - apply (session_id_default env_two_models (request_with_history "hello" []) ∅).
    right. eexists. split; [reflexivity|]. right. right. apply lookup_singleton_eq.
  - set (req2 := request_with_history "again" _).
    set (σ1 := (event_stream env_two_models _ ∅).1.2).
    assert (∃ ctx, user_context req2 = Some ctx
                   ∧ (ctx !! "conversation_id" = None
                      ∨ ctx !! "conversation_id" = Some PNone
                      ∨ ctx !! "conversation_id" = Some (PStr ""))) as Hctx.
    { eexists. split; [reflexivity|]. right. right. apply lookup_singleton_eq. }
    destruct (session_id_default env_two_models req2 σ1 (or_intror Hctx))
      as (_ & _ & -> & _); reflexivity.
Defined.

(** C10 as stated fails for [/chat]: a request with an empty
    [conversation_id] and one history entry, served with everything
    importable, leaves no session [default] in the store; the same request
    on the streaming endpoint creates it. *)
Lemma chat_leaves_store_untouched :
  session_id (request_with_history "hello" [ {| role := "user"; content := "q" |} ])
  = "default"
  ∧ ¬ (∃ log,
         (chat env_two_models
            (request_with_history "hello" [ {| role := "user"; content := "q" |} ])
            ∅).1.2 !! "default" = Some log)
  ∧ (event_stream env_two_models
       (request_with_history "hello" [ {| role := "user"; content := "q" |} ])
       ∅).1.2 !! "default" = Some [HumanMessage "q"].
Proof.
  split; [reflexivity|]. split; [|reflexivity].
  intros [log H]. vm_compute in H. discriminate.
Qed.

(** * Further properties of the code *)

(** ** Installed models *)

Lemma elem_of_list_models env n :
  n ∈ provider_ollama.list_models env
  ↔ n ≠ "" ∧ ∃ tags, api_tags env = Some tags ∧ n ∈ tags.
Proof.
  unfold provider_ollama.list_models.
  destruct (api_tags env) as [tags|].
  - rewrite list_elem_of_In, filter_In, <- list_elem_of_In, truthy_true.
    split.
    + intros [Hn Hne]. split; [done|]. by exists tags.
    + intros [Hne (tags' & [= <-] & Hn)]. done.
  - split; [by intros ?%elem_of_nil|]. by intros [_ (tags & ? & _)].
Qed.

Lemma default_model_installed names :
  provider_ollama.default_model names ∈ names
  ∨ (names = [] ∧ provider_ollama.default_model names = "llama3.1").
Proof.
  unfold provider_ollama.default_model.
  destruct (List.find _ provider_ollama.CANDIDATES) as [cand|] eqn:Hfind.
  - left. apply find_some in Hfind as [_ Hin].
    by apply bool_decide_eq_true in Hin.
  - destruct names as [|n rest]; [by right|]. left. apply elem_of_cons. by left.
Qed.

(** X1.  The names listed by [list_models] are the non-empty names of the
    daemon's answer, in the daemon's order; the list is empty when the
    request to the daemon fails, and the list of [app.py] is empty as well
    when the provider module could not be imported. *)
Theorem list_models_names env :
  (∀ n, n ∈ provider_ollama.list_models env
        ↔ n ≠ "" ∧ ∃ tags, api_tags env = Some tags ∧ n ∈ tags)
  ∧ (∀ tags, api_tags env = Some tags →
             provider_ollama.list_models env `sublist_of` tags)
  ∧ (api_tags env = None → provider_ollama.list_models env = [])
  ∧ (provider_importable env = false → list_models env = []).
Proof.
  split; [apply elem_of_list_models|]. split; [|split].
  - intros tags Htags. unfold provider_ollama.list_models. rewrite Htags.
    clear Htags. induction tags as [|t tags IH]; simpl; [constructor|].
    destruct (Py.truthy t); by constructor.
  - intros Htags. unfold provider_ollama.list_models. by rewrite Htags.
  - intros Hprov. unfold list_models. by rewrite Hprov.
Qed.

(** X2.  Every name that [/models] lists can be asked for by name: with
    [langchain_ollama] importable, [get_llm] returns a handle for exactly
    that name, in the mode asked for. *)
Theorem get_llm_installed env (n : string) streaming :
  n ∈ models env →
  provider_ollama.OLLAMA_AVAILABLE env = true →
  get_llm env (Some n) streaming
  = Return {| llm_model := n; llm_streaming := streaming |}.
Proof.
  unfold models, list_models, get_llm. intros Hn Hav.
  destruct (provider_importable env); [|by apply elem_of_nil in Hn].
  pose proof Hn as [Hne%truthy_true _]%elem_of_list_models.
  unfold provider_ollama.get_llm, provider_ollama.select_model.
  rewrite Hav, Hne. simpl.
  by destruct (decide (n ∈ provider_ollama.list_models env)).
Qed.

Lemma get_llm_installed_witness :
  get_llm env_two_models (Some "mistral:7b") true
  = Return {| llm_model := "mistral:7b"; llm_streaming := true |}.
Proof.
  apply (get_llm_installed env_two_models "mistral:7b" true); [|reflexivity].
  change (models env_two_models) with ["llama3.1"; "mistral:7b"].
  apply elem_of_cons. right. apply elem_of_cons. by left.
Defined.

(** X3.  A handle returned by the provider's [get_llm] is in the mode asked
    for and its model name is not empty.  The model is an installed one;
    the only exception is [llama3.1], handed out when nothing is installed
    and no model was asked for. *)
Theorem get_llm_handle env model streaming llm :
  provider_ollama.get_llm env model streaming = Return llm →
  llm_streaming llm = streaming
  ∧ llm_model llm ≠ ""
  ∧ (llm_model llm ∈ provider_ollama.list_models env
     ∨ (provider_ollama.list_models env = []
        ∧ llm_model llm = "llama3.1"
        ∧ Py.or_str model "" = "")).
Proof.
  unfold provider_ollama.get_llm.
  destruct (provider_ollama.OLLAMA_AVAILABLE env); simpl; [|done].
  set (names := provider_ollama.list_models env).
  assert (∀ n, n ∈ names → n ≠ "") as Hnonempty.
  { intros n Hn. by apply elem_of_list_models in Hn as [? _]. }
  assert (∀ sel, sel ∈ names ∨ (names = [] ∧ sel = "llama3.1") → sel ≠ "")
    as Hsel.
  { intros sel [Hin | [_ ->]]; [by apply Hnonempty|done]. }
  destruct (provider_ollama.select_model model names) as [sel|e] eqn:Hselect;
    [|done].
  intros [= <-]. simpl. split; [done|].
  unfold provider_ollama.select_model in Hselect.
  pose proof (default_model_installed names) as Hdef.
  destruct model as [requested|].
  - destruct (Py.truthy requested) eqn:Htruthy.
    + destruct (decide (requested ∈ names)); [|done].
      injection Hselect as <-. split; [by apply Hnonempty|by left].
    + injection Hselect as <-. apply truthy_false in Htruthy as ->.
      split; [by apply Hsel|].
      destruct Hdef as [Hin | [Hnil Heq]]; [by left|by right].
  - injection Hselect as <-. split; [by apply Hsel|].
    destruct Hdef as [Hin | [Hnil Heq]]; [by left|by right].
Qed.

Lemma get_llm_handle_witness :
  provider_ollama.get_llm env_only_mistral None false
  = Return {| llm_model := "mistral:7b"; llm_streaming := false |}
  ∧ llm_model {| llm_model := "mistral:7b"; llm_streaming := false |} ≠ "".
Proof.
  split; [reflexivity|].
  apply (get_llm_handle env_only_mistral None false). reflexivity.
Defined.

(** X4.  The factory of [models/llm.py] behaves as the provider's
    [get_llm]: its own import guard changes nothing.  The handle of
    [build_history_chain] is therefore the provider's streaming handle for
    [model_name], and for a non-empty [model_name] it exists exactly when
    that model is installed and [langchain_ollama] is importable. *)
Theorem models_llm_get_llm env :
  (∀ model streaming,
      models_llm.get_llm env model streaming
      = provider_ollama.get_llm env model streaming)
  ∧ ∀ model_name,
      chains_compose.build_history_chain env model_name
      = provider_ollama.get_llm env (Some model_name) true
      ∧ (model_name ≠ "" →
         (chains_compose.build_history_chain env model_name
          = Return {| llm_model := model_name; llm_streaming := true |}
          ↔ provider_ollama.OLLAMA_AVAILABLE env = true
            ∧ model_name ∈ provider_ollama.list_models env)).
Proof.
  assert (∀ model streaming,
            models_llm.get_llm env model streaming
            = provider_ollama.get_llm env model streaming) as Hsame.
  { intros model streaming.
    unfold models_llm.get_llm, models_llm.OLLAMA_AVAILABLE,
      provider_ollama.get_llm, provider_ollama.OLLAMA_AVAILABLE.
    by destruct (langchain_ollama_importable env). }
  split; [done|]. intros model_name.
  unfold chains_compose.build_history_chain. rewrite Hsame.
  split; [done|]. intros Hne%truthy_true.
  unfold provider_ollama.get_llm, provider_ollama.select_model.
  rewrite Hne.
  destruct (provider_ollama.OLLAMA_AVAILABLE env); simpl.
  - destruct (decide (model_name ∈ provider_ollama.list_models env));
      split; try done. by intros [_ ?].
  - split; [done|]. by intros [? _].
Qed.

(** ** The stream in detail *)

Lemma get_llm_explicit_handle env (requested : string) streaming llm :
  requested ≠ "" →
  get_llm env (Some requested) streaming = Return llm →
  llm = {| llm_model := requested; llm_streaming := streaming |}.
Proof.
  intros Hne%truthy_true.
  unfold get_llm, provider_ollama.get_llm, provider_ollama.select_model.
  destruct (provider_importable env); [|done].
  destruct (provider_ollama.OLLAMA_AVAILABLE env); simpl; [|done].
  rewrite Hne.
  destruct (decide (requested ∈ provider_ollama.list_models env)); [|done].
  by intros [= <-].
Qed.

Lemma token_events_nonempty cs t : EToken t ∈ token_events cs → t ≠ "".
Proof.
  induction cs as [|c cs IH]; simpl; [by intros ?%elem_of_nil|].
  destruct (Py.truthy _) eqn:E; simpl; [|done].
  intros [[= ->]|Hin]%elem_of_cons; [by apply truthy_true|by apply IH].
Qed.

Lemma meta_not_token_event cs m n : EMeta m n ∉ token_events cs.
Proof.
  intros H. pose proof (token_events_tokens cs) as Hall.
  rewrite Forall_forall in Hall. by apply Hall in H.
Qed.

(** The three shapes of the event sequence. *)
Lemma events_cases env req σ :
  (OLLAMA_AVAILABLE env = false
   ∧ events env req σ = [EToken FALLBACK_TEXT; EDone])
  ∨ (∃ e, OLLAMA_AVAILABLE env = true
          ∧ get_llm env (Some (requested_model req)) true = Raise e
          ∧ events env req σ = [EError (str_exc e); EDone])
  ∨ (∃ llm tail,
        OLLAMA_AVAILABLE env = true
        ∧ get_llm env (Some (requested_model req)) true = Return llm
        ∧ events env req σ
          = EMeta (requested_model req) (length (default [] (history req)))
              :: token_events (chunks (stream env llm (build_messages req)))
              ++ tail
        ∧ (tail = [EDone] ∨ ∃ e, tail = [EError (str_exc e); EDone])).
Proof.
  unfold events. destruct (OLLAMA_AVAILABLE env) eqn:Hav.
  - right.
    destruct (get_llm env (Some (requested_model req)) true) as [llm|e] eqn:Hllm.
    + right. rewrite (event_stream_handle env req σ llm Hav Hllm). simpl.
      pose proof (get_llm_explicit_handle env _ _ _
                    (requested_model_nonempty req) Hllm) as ->. simpl.
      pose proof (requested_model_nonempty req) as Hne%truthy_true.
      rewrite Hne.
      eexists _, _. split; [done|]. split; [done|]. split; [done|].
      destruct (failure _); [right; by eexists|by left].
    + left. exists e. split; [done|]. split; [done|].
      by rewrite (event_stream_no_handle env req σ e Hav Hllm).
  - left. split; [done|]. by rewrite (event_stream_fallback env req σ Hav).
Qed.

(** X5.  When the handle is obtained and the stream ends without an
    exception, the events are: one [meta] with the requested model and the
    length of the request's history, then one [token] per chunk with
    non-empty content, in the order of the chunks, then [done]; there is no
    [error] event.  The handle is the streaming handle of the requested
    model. *)
Theorem event_stream_normal_completion env req σ llm :
  OLLAMA_AVAILABLE env = true →
  get_llm env (Some (requested_model req)) true = Return llm →
  failure (stream env llm (build_messages req)) = None →
  llm = {| llm_model := requested_model req; llm_streaming := true |}
  ∧ events env req σ
    = EMeta (requested_model req) (length (default [] (history req)))
        :: token_events (chunks (stream env llm (build_messages req)))
        ++ [EDone]
  ∧ Forall (fun ev => is_error ev = false) (events env req σ).
Proof.
  intros Hav Hllm Hfail.
  pose proof (get_llm_explicit_handle env _ _ _
                (requested_model_nonempty req) Hllm) as Hhandle.
  split; [done|]. subst llm.
  set (llm := {| llm_model := requested_model req; llm_streaming := true |}) in *.
  assert (events env req σ
          = EMeta (requested_model req) (length (default [] (history req)))
              :: token_events (chunks (stream env llm (build_messages req)))
              ++ [EDone]) as Hev.
  { unfold events. rewrite (event_stream_handle env req σ llm Hav Hllm), Hfail.
    simpl.
    pose proof (requested_model_nonempty req) as Hne%truthy_true.
    by rewrite Hne. }
  split; [done|]. rewrite Hev.
  constructor; [done|]. apply Forall_app. split.
  - eapply Forall_impl; [apply token_events_tokens|]. by intros [].
  - by repeat constructor.
Qed.

Lemma event_stream_normal_completion_witness :
  events env_two_models (chat_request "hello") ∅
  = [EMeta "llama3.1" 0; EToken "Hel"; EToken "lo"; EDone].
Proof.
  apply (event_stream_normal_completion env_two_models (chat_request "hello") ∅
           {| llm_model := "llama3.1"; llm_streaming := true |});
    reflexivity.
Defined.

(** X6.  No token event carries an empty text, on any path. *)
Theorem token_events_never_empty env req σ t :
  EToken t ∈ events env req σ → t ≠ "".
Proof.
  destruct (events_cases env req σ)
    as [[_ ->] | [(e & _ & _ & ->) | (llm & tail & _ & _ & -> & Htail)]].
  - intros [[= ->]|[?|?%elem_of_nil]%elem_of_cons]%elem_of_cons; done.
  - intros [?|[?|?%elem_of_nil]%elem_of_cons]%elem_of_cons; done.
  - intros [?|[Htok|Hin]%elem_of_app]%elem_of_cons; [done| |].
    + by apply token_events_nonempty in Htok.
    + destruct Htail as [-> | [e ->]].
      * by apply list_elem_of_singleton in Hin.
      * by apply elem_of_cons in Hin as [?|?%list_elem_of_singleton].
Qed.

Lemma token_events_never_empty_witness : "Hel" ≠ "".
Proof.
  apply (token_events_never_empty env_two_models (chat_request "hello") ∅).
  apply elem_of_cons. right. apply elem_of_cons. by left.
Defined.

(** X7.  A [meta] event can only be the first event of the stream; it is
    there exactly when the handle was obtained, and it carries the
    requested model ([req.model], or [llama3.1]) and the full length of the
    request's history, which can exceed the ten entries sent to the
    model. *)
Theorem meta_event_first env req σ (i : nat) m n :
  events env req σ !! i = Some (EMeta m n) →
  i = 0
  ∧ m = requested_model req
  ∧ n = length (default [] (history req))
  ∧ OLLAMA_AVAILABLE env = true
  ∧ ∃ llm, get_llm env (Some (requested_model req)) true = Return llm.
Proof.
  destruct (events_cases env req σ)
    as [[_ ->] | [(e & _ & _ & ->) | (llm & tail & Hav & Hllm & -> & Htail)]].
  - by destruct i as [|[|[|i]]].
  - by destruct i as [|[|[|i]]].
  - destruct i as [|i]; simpl.
    + intros [= <- <-]. repeat split; try done. by exists llm.
    + intros Hi. exfalso.
      assert (EMeta m n ∈ token_events
                (chunks (stream env llm (build_messages req))) ++ tail) as Hin.
      { apply list_elem_of_lookup. by exists i. }
      apply elem_of_app in Hin as [Htok|Hin].
      * by apply meta_not_token_event in Htok.
      * destruct Htail as [-> | [e ->]].
        -- by apply list_elem_of_singleton in Hin.
        -- by apply elem_of_cons in Hin as [?|?%list_elem_of_singleton].
Qed.

Lemma meta_event_first_witness :
  length (build_messages (request_with_history "hello" twelve_turns)) = 11
  ∧ 12 = length (default [] (history (request_with_history "hello" twelve_turns))).
Proof.
  split; [reflexivity|].
  apply (meta_event_first env_two_models
           (request_with_history "hello" twelve_turns) ∅ 0 "llama3.1" 12).
  reflexivity.
Defined.

(** ** The store is written, never read back *)

Lemma chat_reply_store_free env req σ τ :
  (chat env req σ).2 = (chat env req τ).2.
Proof.
  unfold chat. destruct (OLLAMA_AVAILABLE env); simpl; [|done].
  unfold try_except, bind, call.
  destruct (get_llm env _ false) as [llm|e]; [|done].
  by destruct (invoke env llm _).
Qed.

(** X8.  What an endpoint answers does not depend on the session store:
    the events of the stream and the reply of [/chat] are the same
    whatever the store holds.  The model input is built from the request
    alone. *)
Theorem replies_ignore_store env req σ τ :
  events env req σ = events env req τ
  ∧ (chat env req σ).2 = (chat env req τ).2.
Proof.
  split; [|apply chat_reply_store_free].
  unfold events. destruct (OLLAMA_AVAILABLE env) eqn:Hav.
  - destruct (get_llm env (Some (requested_model req)) true) as [llm|e] eqn:Hllm.
    + by rewrite !(event_stream_handle env req _ llm Hav Hllm).
    + by rewrite !(event_stream_no_handle env req _ e Hav Hllm).
  - by rewrite !(event_stream_fallback env req _ Hav).
Qed.

Lemma build_messages_parts req :
  build_messages req
  = (if Py.truthy (Py.strip (Py.or_str (system req) ""))
     then [HumanMessage ("[SYSTEM]" +:+ LF +:+ Py.or_str (system req) "")]
     else [])
    ++ map to_message (Py.last_n 10 (default [] (history req)))
    ++ [HumanMessage (message req)].
Proof. unfold build_messages. by destruct (history req) as [[|h l]|]. Qed.

(** X9.  For a request whose [conversation_id] is missing, [None] or a
    string, a stream changes the store at most at the session of the
    request.  There the log is only extended: when the flag is set and the
    store module was imported, by the messages of the last ten history
    entries, which are exactly the part of the model input between the
    system note and the new message; otherwise by nothing.  The system
    note, the new message and the model's answer are never stored. *)
Theorem event_stream_store_effect env req σ :
  conversation_id_is_text req →
  let after := (event_stream env req σ).1.2 in
  let sid := session_id req in
  let added :=
    if OLLAMA_AVAILABLE env && lcel_importable env
    then map to_message (Py.last_n 10 (default [] (history req))) else [] in
  (∀ k, k ≠ sid → after !! k = σ !! k)
  ∧ (∀ log, σ !! sid = Some log → after !! sid = Some (log ++ added))
  ∧ (σ !! sid = None →
     after !! sid
     = if OLLAMA_AVAILABLE env && lcel_importable env then Some added else None)
  ∧ ∃ note,
      build_messages req
      = note ++ map to_message (Py.last_n 10 (default [] (history req)))
        ++ [HumanMessage (message req)].
Proof.
  intros _ after sid added. unfold after, added. rewrite event_stream_store.
  unfold store_after_seed. fold sid.
  split; [|split; [|split]].
  - intros k Hk. destruct (OLLAMA_AVAILABLE env); [|done].
    destruct (lcel_importable env); [|done]. by apply seeded_other.
  - intros log Hlog.
    destruct (OLLAMA_AVAILABLE env); simpl; [|by rewrite app_nil_r].
    destruct (lcel_importable env); [|by rewrite app_nil_r].
    by rewrite seeded_lookup, Hlog.
  - intros Hnone. destruct (OLLAMA_AVAILABLE env); simpl; [|done].
    destruct (lcel_importable env); [|done].
    by rewrite seeded_lookup, Hnone.
  - eexists. apply build_messages_parts.
Qed.

Lemma request_in_is_text name hs : conversation_id_is_text (request_in name hs).
Proof.
  right. eexists. split; [reflexivity|]. right. right. exists name.
  apply lookup_singleton_eq.
Defined.

(** With the store imported the one history entry reaches the log of
    [chat-7]; with the store missing no log is created. *)
Lemma event_stream_store_effect_witness :
  (event_stream env_two_models
     (request_in "chat-7" [ {| role := "user"; content := "q" |} ]) ∅).1.2
    !! "chat-7" = Some [HumanMessage "q"]
  ∧ (event_stream env_no_store
       (request_in "chat-7" [ {| role := "user"; content := "q" |} ]) ∅).1.2
      !! "chat-7" = None.
Proof.
  split.
  - exact (proj1 (proj2 (proj2
             (event_stream_store_effect env_two_models
                (request_in "chat-7" [ {| role := "user"; content := "q" |} ]) ∅
                (request_in_is_text _ _)))) (lookup_empty _)).
  - exact (proj1 (proj2 (proj2
             (event_stream_store_effect env_no_store
                (request_in "chat-7" [ {| role := "user"; content := "q" |} ]) ∅
                (request_in_is_text _ _)))) (lookup_empty _)).
Defined.

(** X10.  For a request whose [conversation_id] is missing, [None] or a
    string: when the flag of [app.py] is set and the store module was
    imported, the history of the request is appended each time it is
    streamed, so that streaming the same request twice leaves its last ten
    history entries twice in the log of its session; when the flag is not
    set or the store module was not imported, streaming it twice leaves
    the store as it was. *)
Theorem event_stream_twice_duplicates env req σ :
  conversation_id_is_text req →
  let once := (event_stream env req σ).1.2 in
  let twice := (event_stream env req once).1.2 in
  let hs := map to_message (Py.last_n 10 (default [] (history req))) in
  (OLLAMA_AVAILABLE env = true → lcel_importable env = true →
   twice !! session_id req
   = Some (default [] (σ !! session_id req) ++ hs ++ hs))
  ∧ (OLLAMA_AVAILABLE env = false ∨ lcel_importable env = false →
     twice = σ).
Proof.
  intros _ once twice hs. unfold twice, once.
  rewrite !event_stream_store. unfold store_after_seed. split.
  - intros -> ->. rewrite !seeded_lookup. simpl. by rewrite <- app_assoc.
  - intros [-> | ->]; [done|]. by destruct (OLLAMA_AVAILABLE env).
Qed.

Lemma event_stream_twice_duplicates_witness :
  (event_stream env_two_models
     (request_in "chat-7" [ {| role := "user"; content := "q" |} ])
     (event_stream env_two_models
        (request_in "chat-7" [ {| role := "user"; content := "q" |} ])
        ∅).1.2).1.2 !! "chat-7"
  = Some [HumanMessage "q"; HumanMessage "q"]
  ∧ (event_stream env_no_store
       (request_in "chat-7" [ {| role := "user"; content := "q" |} ])
       (event_stream env_no_store
          (request_in "chat-7" [ {| role := "user"; content := "q" |} ])
          ∅).1.2).1.2 = ∅.
Proof.
  split.
  - exact (proj1 (event_stream_twice_duplicates env_two_models
                    (request_in "chat-7" [ {| role := "user"; content := "q" |} ])
                    ∅ (request_in_is_text _ _)) eq_refl eq_refl).
  - exact (proj2 (event_stream_twice_duplicates env_no_store
                    (request_in "chat-7" [ {| role := "user"; content := "q" |} ])
                    ∅ (request_in_is_text _ _)) (or_intror eq_refl)).
Defined.

(** ** The one-shot endpoint *)

(** X11.  [/chat] always answers: it emits no event, leaves the store as it
    is and raises nothing.  Its output is the fixed notice when the flag of
    [app.py] is not set; otherwise it is the model's reply to the assembled
    messages, or the text [Error from model: ] followed by the message of
    the exception that [get_llm] or the model call raised. *)
Theorem chat_always_answers env req σ :
  ∃ reply,
    chat env req σ = ([], σ, Return reply)
    ∧ ((OLLAMA_AVAILABLE env = false
        ∧ output reply
          = "Backend is running, but langchain-ollama is not installed.")
       ∨ (OLLAMA_AVAILABLE env = true
          ∧ ∃ e, get_llm env (Some (requested_model req)) false = Raise e
                 ∧ reply = {| output := "Error from model: " +:+ str_exc e;
                              model_entry := None |})
       ∨ (OLLAMA_AVAILABLE env = true
          ∧ ∃ llm, get_llm env (Some (requested_model req)) false = Return llm
                   ∧ llm_model llm = requested_model req
                   ∧ match invoke env llm (ChatMessages (build_messages req)) with
                     | Return text => reply = {| output := text; model_entry := None |}
                     | Raise e =>
                         reply = {| output := "Error from model: " +:+ str_exc e;
                                    model_entry := None |}
                     end)).
Proof.
  unfold chat. destruct (OLLAMA_AVAILABLE env); simpl.
  - unfold try_except, bind, call.
    destruct (get_llm env _ false) as [llm|e] eqn:Hllm.
    + pose proof (get_llm_explicit env _ _ _ (requested_model_nonempty req) Hllm)
        as [Hmodel _].
      destruct (invoke env llm _) as [text|e] eqn:Hinv;
        (eexists; split; [done|]; right; right; split; [done|];
         exists llm; split; [done|]; split; [done|]; by rewrite Hinv).
    + eexists. split; [done|]. right. left. split; [done|]. by exists e.
  - eexists. split; [done|]. by left.
Qed.

(** The two failures of [/chat], and its reply when all goes well. *)
Example chat_model_call_fails :
  chat env_refusing (chat_request "hello") ∅
  = ([], ∅, Return {| output := "Error from model: connection refused";
                      model_entry := None |}).
Proof. reflexivity. Qed.

Example chat_replies :
  chat env_two_models (chat_request "hello") ∅
  = ([], ∅, Return {| output := "Hello"; model_entry := None |}).
Proof. reflexivity. Qed.

(** The role is compared in lower case. *)
Example to_message_letter_case :
  map to_message [ {| role := "Assistant"; content := "a" |};
                   {| role := "ASSISTANT"; content := "b" |};
                   {| role := "assistant "; content := "c" |};
                   {| role := "User"; content := "d" |} ]
  = [AIMessage "a"; AIMessage "b"; HumanMessage "c"; HumanMessage "d"].
Proof. reflexivity. Qed.

(** X12.  [/chat] looks at the last ten history entries only: cutting the
    history of a request to its last ten entries does not change the
    reply. *)
Theorem chat_uses_last_ten env req σ hs :
  history req = Some hs →
  chat env (with_history (Some (Py.last_n 10 hs)) req) σ = chat env req σ.
Proof.
  intros Hhs.
  assert (build_messages (with_history (Some (Py.last_n 10 hs)) req)
          = build_messages req) as Hmsgs.
  { rewrite !build_messages_parts. simpl. rewrite Hhs. simpl.
    f_equal. f_equal. f_equal.
    unfold Py.last_n. rewrite length_drop, drop_drop. f_equal. lia. }
  unfold chat. by rewrite Hmsgs.
Qed.

Lemma chat_uses_last_ten_witness :
  chat env_two_models
    (with_history (Some (replicate 10 {| role := "user"; content := "q" |}))
       (request_with_history "hello" twelve_turns)) ∅
  = chat env_two_models (request_with_history "hello" twelve_turns) ∅.
Proof.
  apply (chat_uses_last_ten env_two_models
           (request_with_history "hello" twelve_turns) ∅ twelve_turns).
  reflexivity.
Defined.

(** ** The shape of a title *)

Lemma Forall_dropwhile (P : ascii → Prop) p l :
  Forall P l → Forall P (Py.dropwhile p l).
Proof.
  destruct (dropwhile_suffix p l) as [pre H]. intros Hl.
  rewrite H in Hl. by apply Forall_app in Hl as [_ ?].
Qed.

Lemma Forall_rstrip_by (P : ascii → Prop) p l :
  Forall P l → Forall P (Py.rstrip_by p l).
Proof.
  destruct (rstrip_by_prefix p l) as [suf H]. intros Hl.
  rewrite H in Hl. by apply Forall_app in Hl as [? _].
Qed.

Lemma Forall_strip_by (P : ascii → Prop) p l :
  Forall P l → Forall P (Py.strip_by p l).
Proof.
  intros Hl. unfold Py.strip_by, Py.lstrip_by.
  by apply Forall_rstrip_by, Forall_dropwhile.
Qed.

Lemma dropwhile_head p l c :
  head (Py.dropwhile p l) = Some c → p c = false.
Proof.
  induction l as [|a l IH]; simpl; [done|].
  destruct (p a) eqn:Ha; [done|]. simpl. by intros [= <-].
Qed.

Lemma last_rev {A} (l : list A) : last (rev l) = head l.
Proof. destruct l as [|a l]; [done|]. simpl. by rewrite last_snoc. Qed.

Lemma rstrip_by_last p l c :
  last (Py.rstrip_by p l) = Some c → p c = false.
Proof. unfold Py.rstrip_by. rewrite last_rev. apply dropwhile_head. Qed.

Lemma rstrip_by_head p l c :
  head (Py.rstrip_by p l) = Some c → head l = Some c.
Proof.
  destruct (rstrip_by_prefix p l) as [suf H]. intros Hc.
  rewrite H. by destruct (Py.rstrip_by p l).
Qed.

Lemma single_spaced_join ws :
  Forall no_space ws → single_spaced (Py.join_space ws).
Proof.
  unfold single_spaced, no_space.
  induction 1 as [|w ws Hw Hws IH]; simpl; [constructor|].
  assert (Forall (fun c => Py.isspace c = true → c = " "%char) w) as Hw'.
  { eapply Forall_impl; [exact Hw|]. intros c Hc. by rewrite Hc. }
  destruct ws as [|w' ws']; [done|].
  apply Forall_app. split; [done|]. by constructor.
Qed.

Lemma single_spaced_limit_words mw text :
  single_spaced (list_ascii_of_string text) →
  single_spaced (list_ascii_of_string (limit_words mw text)).
Proof.
  intros Hsp. unfold limit_words.
  destruct (mw <? _)%Z; [|done].
  rewrite list_ascii_of_string_of_list_ascii.
  by apply single_spaced_join, Forall_slice_to, split_space_no_space.
Qed.

(** The text of the heuristic before the final [or]: what line 166
    leaves. *)
Lemma heuristic_title_unfold msgs mw :
  ∃ t4,
    single_spaced (list_ascii_of_string t4)
    ∧ _heuristic_title msgs mw
      = Py.or_str (Some (Re.sub_trailing (Py.strip_chars QUOTE_CHARS t4))) NEW_CHAT.
Proof.
  unfold _heuristic_title. eexists. split; [|reflexivity].
  apply single_spaced_limit_words.
  unfold Py.strip, Re.collapse_ws. rewrite !chars_on_chars.
  apply single_spaced_strip, single_spaced_collapse.
Qed.

(** X13.  A heuristic title never begins with whitespace or with a quote
    character (double quote, single quote, backtick), and never ends with
    whitespace or with one of the characters [. , ; : ! ? -]. *)
Theorem heuristic_title_edges msgs mw :
  let t := list_ascii_of_string (_heuristic_title msgs mw) in
  (∀ c, head t = Some c → Py.isspace c = false ∧ Py.mem QUOTE_CHARS c = false)
  ∧ (∀ c, last t = Some c → Re.is_trailer c = false).
Proof.
  intros t. unfold t.
  destruct (heuristic_title_unfold msgs mw) as (t4 & Hsp & ->).
  unfold Py.or_str.
  destruct (Py.truthy _) eqn:Htruthy.
  - unfold Re.sub_trailing, Py.strip_chars. rewrite !chars_on_chars.
    split.
    + intros c Hc. apply rstrip_by_head in Hc.
      assert (Py.mem QUOTE_CHARS c = false) as Hq.
      { unfold Py.strip_by, Py.lstrip_by in Hc.
        apply rstrip_by_head in Hc. by apply dropwhile_head in Hc. }
      split; [|done].
      assert (single_spaced
                (Py.strip_by (Py.mem QUOTE_CHARS) (list_ascii_of_string t4)))
        as Hsp' by by apply single_spaced_strip.
      destruct (Py.strip_by _ _) as [|c' r]; [done|].
      injection Hc as ->. apply Forall_cons in Hsp' as [Hc _].
      destruct (Py.isspace c) eqn:Hspace; [|done].
      rewrite (Hc eq_refl) in Hq. done.
    + intros c Hc. by apply rstrip_by_last in Hc.
  - split; intros c [= <-]; done.
Qed.

(** X14.  A heuristic title is a single line of single-spaced words: its
    only whitespace character is the plain space (no tab, line break or
    no-break space). *)
Theorem heuristic_title_single_spaced msgs mw :
  single_spaced (list_ascii_of_string (_heuristic_title msgs mw)).
Proof.
  destruct (heuristic_title_unfold msgs mw) as (t4 & Hsp & ->).
  unfold Py.or_str. destruct (Py.truthy _).
  - unfold Re.sub_trailing, Py.strip_chars. rewrite !chars_on_chars.
    by apply Forall_rstrip_by, single_spaced_strip.
  - unfold single_spaced. simpl. repeat constructor; done.
Qed.

(** ** Which text the title is made from *)

Lemma find_all_false {A} (f : A → bool) (l : list A) :
  Forall (fun x => f x = false) l → List.find f l = None.
Proof. induction 1 as [|x l Hx _ IH]; simpl; [done|]. by rewrite Hx. Qed.

Lemma find_after_false {A} (f : A → bool) (l1 l2 : list A) x :
  Forall (fun y => f y = false) l1 → f x = true →
  List.find f (l1 ++ x :: l2) = Some x.
Proof.
  induction 1 as [|y l Hy _ IH]; simpl; intros Hx; [by rewrite Hx|].
  rewrite Hy. by apply IH.
Qed.

Lemma Forall_rev_list {A} (P : A → Prop) (l : list A) :
  Forall P l → Forall P (rev l).
Proof.
  induction 1 as [|x l Hx _ IH]; simpl; [constructor|].
  apply Forall_app. split; [done|]. by constructor.
Qed.

Lemma strip_truthy c : Py.truthy (Py.strip c) = true → Py.truthy c = true.
Proof. by destruct c. Qed.

(** X15.  The title is made from the most recent message whose role is
    [user] in any letter case and whose content is not blank, whatever
    follows it.  Without such a message it is made from the most recent
    message with non-blank content, and from the empty text when every
    content is blank. *)
Theorem select_text_choice msgs :
  (∀ before m after,
      msgs = before ++ m :: after →
      is_user_text m = true →
      Forall (fun x => is_user_text x = false) after →
      select_text msgs = content m)
  ∧ (∀ before m after,
        msgs = before ++ m :: after →
        Forall (fun x => is_user_text x = false) msgs →
        has_text m = true →
        Forall (fun x => has_text x = false) after →
        select_text msgs = content m)
  ∧ (Forall (fun x => has_text x = false) msgs → select_text msgs = "").
Proof.
  split; [|split].
  - intros before m after -> Hm Hafter. unfold select_text.
    rewrite rev_app_distr. simpl. rewrite <- app_assoc. simpl.
    rewrite (find_after_false is_user_text);
      [|by apply Forall_rev_list|done].
    apply andb_prop in Hm as [_ Htext]. by rewrite (strip_truthy _ Htext).
  - intros before m after -> Hnouser Hm Hafter. unfold select_text.
    rewrite (find_all_false is_user_text); [|by apply Forall_rev_list].
    simpl. rewrite rev_app_distr. simpl. rewrite <- app_assoc. simpl.
    by rewrite (find_after_false has_text); [|by apply Forall_rev_list|].
  - intros Hnone. unfold select_text.
    rewrite (find_all_false is_user_text).
    + simpl. by rewrite (find_all_false has_text); [|apply Forall_rev_list].
    + apply Forall_rev_list. eapply Forall_impl; [exact Hnone|].
      unfold is_user_text, has_text. intros x ->. apply andb_false_r.
Qed.

(** X16.  When no message has text (no message at all, or blank contents
    only) and [max_words] is at least 2, the heuristic title is
    [New Chat]. *)
Theorem heuristic_title_blank msgs (mw : Z) :
  Forall (fun m => has_text m = false) msgs →
  (2 ≤ mw)%Z →
  _heuristic_title msgs mw = "New Chat".
Proof.
  intros Hblank Hmw.
  assert (select_text msgs = "") as Hsel.
  { unfold select_text.
    rewrite (find_all_false is_user_text).
    - simpl. by rewrite (find_all_false has_text); [|apply Forall_rev_list].
    - apply Forall_rev_list. eapply Forall_impl; [exact Hblank|].
      unfold is_user_text, has_text. intros x ->. apply andb_false_r. }
  unfold _heuristic_title. rewrite Hsel.
  change (Py.strip (Re.collapse_ws (Re.sub_headers (Re.sub_fences
            (Py.strip (Py.or_str (Some "") NEW_CHAT))))))
    with "New Chat".
  unfold limit_words.
  change (Z.of_nat (length (Py.split_space (list_ascii_of_string "New Chat"))))
    with 2%Z.
  destruct (Z.ltb_spec mw 2); [lia|]. reflexivity.
Qed.

Lemma heuristic_title_blank_witness :
  _heuristic_title [ {| role := "user"; content := "   " |} ] 6 = "New Chat".
Proof.
  apply (heuristic_title_blank [ {| role := "user"; content := "   " |} ] 6).
  - repeat constructor.
  - lia.
Defined.

(** ** The title boost *)

(** X17.  The boost is absorbed whenever it does not deliver: the title is
    the heuristic one when the flag of [app.py] is not set, when [get_llm]
    raises, when the model call is still running after two seconds, when
    it raises, and when its reply is blank. *)
Theorem generate_title_fallback env req :
  OLLAMA_AVAILABLE env = false
  ∨ (∃ e, get_llm env (title_model req) false = Raise e)
  ∨ (∃ llm, get_llm env (title_model req) false = Return llm
            ∧ (invoke_over_2s env llm (title_prompt req) = true
               ∨ (∃ e, invoke env llm (title_prompt req) = Raise e)
               ∨ (∃ res, invoke env llm (title_prompt req) = Return res
                         ∧ Py.strip res = ""))) →
  generate_title env req = _heuristic_title (messages req) (max_words req).
Proof.
  unfold generate_title, title_boost.
  intros [-> | [(e & ->) | (llm & -> & Hinv)]]; [done| |].
  - by destruct (OLLAMA_AVAILABLE env).
  - destruct (OLLAMA_AVAILABLE env); [|done].
    destruct Hinv as [-> | [(e & He) | (res & Hres & Hblank)]]; [done| |].
    + destruct (invoke_over_2s env llm _); [done|]. by rewrite He.
    + destruct (invoke_over_2s env llm _); [done|].
      by rewrite Hres, Hblank.
Qed.

Lemma generate_title_fallback_witness :
  generate_title env_slow (title_request "Explain binary search" 6)
  = "Explain binary search".
Proof.
  exact (generate_title_fallback env_slow
           (title_request "Explain binary search" 6)
           (or_intror (or_intror
              (ex_intro _ {| llm_model := "llama3.1"; llm_streaming := false |}
                 (conj eq_refl (or_introl eq_refl)))))).
Defined.

(** X18.  A title that comes from the boost is not empty, holds no quote
    character and no line break, and does not end with whitespace or with
    one of [. , ; : ! ? -].  It exists only when the model replied within
    two seconds. *)
Theorem title_boost_clean env req t :
  title_boost env req = Some t →
  t ≠ ""
  ∧ Forall (fun c => Re.is_quote c = false ∧ is_linebreak c = false)
           (list_ascii_of_string t)
  ∧ (∀ c, last (list_ascii_of_string t) = Some c → Re.is_trailer c = false)
  ∧ ∃ llm res,
      get_llm env (title_model req) false = Return llm
      ∧ invoke_over_2s env llm (title_prompt req) = false
      ∧ invoke env llm (title_prompt req) = Return res.
Proof.
  intros H. split; [by apply title_boost_nonempty in H|].
  unfold title_boost in H.
  destruct (get_llm env (title_model req) false) as [llm|] eqn:Hllm; [|done].
  destruct (invoke_over_2s env llm _) eqn:Hslow; [done|].
  destruct (invoke env llm _) as [res|] eqn:Hinv; [|done].
  unfold first_line in H.
  destruct (Py.strip res) as [|a r] eqn:Hres; [done|].
  destruct (Py.truthy _); [|done]. injection H as <-.
  unfold Re.sub_trailing, Re.sub_quotes, Py.strip. rewrite !chars_on_chars.
  split; [|split].
  - apply Forall_rstrip_by.
    set (line := Py.strip_by Py.isspace _).
    assert (Forall (fun c => is_linebreak c = false) line) as Hline.
    { apply Forall_strip_by.
      generalize (list_ascii_of_string (String a r)). intros l.
      induction l as [|c l IH]; simpl; [constructor|].
      destruct (is_linebreak c) eqn:E; simpl; [constructor|].
      by constructor. }
    clear -Hline. induction Hline as [|c l Hc _ IH]; simpl; [constructor|].
    destruct (Re.is_quote c) eqn:E; simpl; [done|]. by constructor.
  - intros c Hc. by apply rstrip_by_last in Hc.
  - by exists llm, res.
Qed.

Lemma title_boost_clean_witness :
  title_boost env_quoting (title_request "Explain binary search" 6)
  = Some "Binary Search"
  ∧ "Binary Search" ≠ "".
Proof.
  split; [reflexivity|].
  apply (title_boost_clean env_quoting (title_request "Explain binary search" 6)).
  reflexivity.
Defined.

(** ** Health and warm-up *)

(** X19.  [/ollama/health] reports the daemon online exactly when the
    provider module was imported and the version request answered [ok];
    the model count is then the number of listed models, and it is 0
    whenever the daemon is reported offline. *)
Theorem ollama_health_report env version :
  let r := ollama_health env version in
  (online r = true ↔ provider_importable env = true ∧ version = Some true)
  ∧ (online r = true →
     models_count r = length (provider_ollama.list_models env))
  ∧ (online r = false → models_count r = 0).
Proof.
  unfold ollama_health, list_models, is_online.
  destruct (provider_importable env); simpl.
  - destruct version as [[|]|]; simpl; repeat split; try done;
      by intros [_ ?].
  - repeat split; try done. by intros [? _].
Qed.


(** ** Masked values *)

Lemma string_of_list_ascii_app l1 l2 :
  string_of_list_ascii (l1 ++ l2)
  = string_of_list_ascii l1 +:+ string_of_list_ascii l2.
Proof.
  induction l1 as [|a l1 IH]; [done|]. simpl.
  by rewrite IH, string_app_cons.
Qed.

Lemma string_length_chars s :
  String.length s = length (list_ascii_of_string s).
Proof. induction s as [|a s IH]; simpl; [done|]. by rewrite IH. Qed.

(** The characters of a masked long value. *)
Lemma mask_long_chars s :
  6 < String.length s →
  list_ascii_of_string (_mask (Some s))
  = take 3 (list_ascii_of_string s)
    ++ list_ascii_of_string "***"
    ++ Py.last_n 3 (list_ascii_of_string s).
Proof.
  intros Hlen. unfold _mask.
  assert (Py.truthy s = true) as ->.
  { apply truthy_true. intros ->. simpl in Hlen. lia. }
  destruct (Nat.leb_spec (String.length s) 6); [lia|]. simpl negb. cbv iota.
  unfold Py.on_chars.
  rewrite <- (string_of_list_ascii_of_string "***") at 1.
  rewrite <- !string_of_list_ascii_app.
  by rewrite list_ascii_of_string_of_list_ascii.
Qed.

(** X21.  [_mask] gives the empty text for a missing or empty value, three
    asterisks for a value of one to six characters, and for a longer value
    nine characters: its first three, three asterisks, its last three.  So
    a short value is hidden entirely, and of a long one nothing but the
    first and last three characters can be read off the mask. *)
Theorem mask_reveals_little :
  _mask None = "" ∧ _mask (Some "") = ""
  ∧ (∀ s, s ≠ "" → String.length s ≤ 6 → _mask (Some s) = "***")
  ∧ (∀ s, 6 < String.length s →
          String.length (_mask (Some s)) = 9
          ∧ list_ascii_of_string (_mask (Some s))
            = take 3 (list_ascii_of_string s)
              ++ list_ascii_of_string "***"
              ++ Py.last_n 3 (list_ascii_of_string s))
  ∧ (∀ s s', 6 < String.length s → 6 < String.length s' →
             take 3 (list_ascii_of_string s) = take 3 (list_ascii_of_string s') →
             Py.last_n 3 (list_ascii_of_string s)
             = Py.last_n 3 (list_ascii_of_string s') →
             _mask (Some s) = _mask (Some s')).
Proof.
  split; [done|]. split; [done|]. split; [|split].
  - intros s Hne%truthy_true Hlen. unfold _mask. rewrite Hne. simpl.
    by destruct (Nat.leb_spec (String.length s) 6); [|lia].
  - intros s Hlen. split; [|by apply mask_long_chars].
    rewrite string_length_chars, (mask_long_chars s Hlen).
    rewrite string_length_chars in Hlen.
    rewrite !length_app, length_take, length_last_n.
    change (length (list_ascii_of_string "***")) with 3. lia.
  - intros s s' Hs Hs' Hhead Htail.
    rewrite <- (string_of_list_ascii_of_string (_mask (Some s))).
    rewrite <- (string_of_list_ascii_of_string (_mask (Some s'))).
    by rewrite (mask_long_chars s Hs), (mask_long_chars s' Hs'), Hhead, Htail.
Qed.

(** X22.  [/env/debug] returns the nine keys of its list and no other.  The
    two API keys are returned masked; the seven other values are returned
    as they are, the empty text standing for a missing one. *)
Theorem env_debug_report environ :
  dom (env_debug environ) = list_to_set DEBUG_KEYS
  ∧ env_debug environ !! "LANGCHAIN_API_KEY"
    = Some (_mask (environ !! "LANGCHAIN_API_KEY"))
  ∧ env_debug environ !! "OPENAI_API_KEY"
    = Some (_mask (environ !! "OPENAI_API_KEY"))
  ∧ ∀ k, k ∈ DEBUG_KEYS →
         k ≠ "LANGCHAIN_API_KEY" → k ≠ "OPENAI_API_KEY" →
         env_debug environ !! k = Some (Py.or_str (environ !! k) "").
Proof.
  unfold env_debug, DEBUG_KEYS. cbn [foldl].
  split; [|split; [|split]].
  - rewrite !dom_insert_L, dom_empty_L. set_solver.
  - rewrite !lookup_insert_ne by done. by rewrite lookup_insert_eq.
  - rewrite !lookup_insert_ne by done. by rewrite lookup_insert_eq.
  - intros k Hk Hk1 Hk2.
    repeat (apply elem_of_cons in Hk as [-> | Hk];
            [first [ done
                   | rewrite ?lookup_insert_ne by done;
                     by rewrite lookup_insert_eq ]|]).
    by apply elem_of_nil in Hk.
Qed.

(** ** The legacy environment names *)

(** Two different literal names. *)
Ltac names_differ := apply String.eqb_neq; reflexivity.

Lemma adopt_legacy_lookup legacy current environ k :
  adopt_legacy legacy current environ !! k
  = if String.eqb k current
       && env_set environ legacy && negb (env_set environ current)
    then environ !! legacy else environ !! k.
Proof.
  unfold adopt_legacy, _ensure_env.
  destruct (env_set environ legacy) eqn:Hlegacy;
    destruct (env_set environ current) eqn:Hcurrent; simpl;
    rewrite ?andb_false_r; try done.
  destruct (String.eqb_spec k current) as [->|Hk]; simpl.
  - rewrite lookup_insert_eq.
    unfold env_set in Hlegacy. by destruct (environ !! legacy).
  - by rewrite lookup_insert_ne.
Qed.

Lemma env_set_adopt_legacy legacy current environ name :
  name ≠ current →
  env_set (adopt_legacy legacy current environ) name = env_set environ name.
Proof.
  intros Hne%String.eqb_neq. unfold env_set at 1.
  by rewrite adopt_legacy_lookup, Hne.
Qed.

Lemma normalize_env_lookup environ k :
  normalize_env environ !! k
  = match legacy_name k with
    | Some legacy =>
        if env_set environ legacy && negb (env_set environ k)
        then environ !! legacy else environ !! k
    | None => environ !! k
    end.
Proof.
  unfold normalize_env, legacy_name.
  rewrite !adopt_legacy_lookup.
  rewrite !env_set_adopt_legacy by names_differ.
  destruct (String.eqb_spec k "LANGCHAIN_TRACING_V2") as [->|_]; [done|].
  destruct (String.eqb_spec k "LANGCHAIN_ENDPOINT") as [->|_]; [done|].
  by destruct (String.eqb_spec k "LANGCHAIN_PROJECT") as [->|_].
Qed.

Lemma legacy_name_not_current k legacy :
  legacy_name k = Some legacy → legacy_name legacy = None.
Proof.
  unfold legacy_name.
  destruct (String.eqb k "LANGCHAIN_TRACING_V2"); [by intros [= <-]|].
  destruct (String.eqb k "LANGCHAIN_ENDPOINT"); [by intros [= <-]|].
  by destruct (String.eqb k "LANGCHAIN_PROJECT"); [intros [= <-]|].
Qed.

Lemma env_set_normalize_legacy environ k legacy :
  legacy_name k = Some legacy →
  env_set (normalize_env environ) legacy = env_set environ legacy.
Proof.
  intros H%legacy_name_not_current. unfold env_set at 1.
  by rewrite normalize_env_lookup, H.
Qed.

Lemma env_set_normalize_current environ k legacy :
  legacy_name k = Some legacy →
  env_set (normalize_env environ) k
  = env_set environ k || env_set environ legacy.
Proof.
  intros Hk. unfold env_set at 1. rewrite normalize_env_lookup, Hk.
  destruct (env_set environ legacy) eqn:Hlegacy;
    destruct (env_set environ k) eqn:Hset; simpl; done.
Qed.

(** X23.  Normalising the environment never changes a variable that is
    set (non-empty), and changes no variable other than the three
    [LANGCHAIN_*] names; doing it twice is the same as doing it once. *)
Theorem normalize_env_preserves environ :
  (∀ k, env_set environ k = true → normalize_env environ !! k = environ !! k)
  ∧ (∀ k, legacy_name k = None → normalize_env environ !! k = environ !! k)
  ∧ normalize_env (normalize_env environ) = normalize_env environ.
Proof.
  split; [|split].
  - intros k Hk. rewrite normalize_env_lookup, Hk.
    destruct (legacy_name k); [|done]. by rewrite andb_false_r.
  - intros k Hk. by rewrite normalize_env_lookup, Hk.
  - apply map_eq. intros k. rewrite (normalize_env_lookup (normalize_env _)).
    destruct (legacy_name k) as [legacy|] eqn:Hk; [|done].
    rewrite (env_set_normalize_legacy _ k legacy Hk).
    rewrite (env_set_normalize_current _ k legacy Hk).
    by destruct (env_set environ legacy), (env_set environ k).
Qed.

(** X24.  After normalising, each of [LANGCHAIN_TRACING_V2],
    [LANGCHAIN_ENDPOINT] and [LANGCHAIN_PROJECT] that was not set has the
    value of its [LANGSMITH_*] counterpart when that one is set, and is
    left as it was when the counterpart is not set either. *)
Theorem normalize_env_adopts environ :
  legacy_name "LANGCHAIN_TRACING_V2" = Some "LANGSMITH_TRACING"
  ∧ legacy_name "LANGCHAIN_ENDPOINT" = Some "LANGSMITH_ENDPOINT"
  ∧ legacy_name "LANGCHAIN_PROJECT" = Some "LANGSMITH_PROJECT"
  ∧ ∀ current legacy,
      legacy_name current = Some legacy →
      env_set environ current = false →
      normalize_env environ !! current
      = if env_set environ legacy then environ !! legacy
        else environ !! current.
Proof.
  split; [done|]. split; [done|]. split; [done|].
  intros current legacy Hname Hunset.
  by rewrite normalize_env_lookup, Hname, Hunset, andb_true_r.
Qed.

(** ** Bounds *)


(** X26.  With [max_words = 0] the heuristic title is [New Chat], whatever
    the messages. *)
Theorem heuristic_title_zero_words msgs :
  _heuristic_title msgs 0 = "New Chat".
Proof.
  unfold _heuristic_title.
  set (t3 := Py.strip (Re.collapse_ws _)).
  unfold limit_words.
  pose proof (split_space_nonempty (list_ascii_of_string t3)) as Hne.
  destruct (Py.split_space (list_ascii_of_string t3)) as [|w ws]; [done|].
  reflexivity.
Qed.

(** ** Sessions *)

(** X27.  [get_session_history] returns the log of the session when there
    is one and creates an empty log when there is none; it changes no
    other session, never shortens a log, and asking twice is the same as
    asking once. *)
Theorem get_session_history_creates sid (σ : Store) :
  memory_store.get_session_history sid σ !! sid = Some (default [] (σ !! sid))
  ∧ (∀ k, k ≠ sid → memory_store.get_session_history sid σ !! k = σ !! k)
  ∧ (∀ k log, σ !! k = Some log →
              memory_store.get_session_history sid σ !! k = Some log)
  ∧ memory_store.get_session_history sid
      (memory_store.get_session_history sid σ)
    = memory_store.get_session_history sid σ.
Proof.
  split; [apply get_session_history_lookup|].
  split; [intros k Hk; by apply get_session_history_other|].
  split.
  - intros k log Hlog. destruct (decide (k = sid)) as [->|Hk].
    + by rewrite get_session_history_lookup, Hlog.
    + by rewrite get_session_history_other.
  - unfold memory_store.get_session_history at 1.
    by rewrite get_session_history_lookup.
Qed.

(** X28.  A request that names a conversation streams into the session of
    that name: with a non-empty [conversation_id] the session id is that
    text, and the stream leaves the log of every other session, the one of
    [default] included, as it was. *)
Theorem session_id_named env req σ ctx (name : string) :
  user_context req = Some ctx →
  ctx !! "conversation_id" = Some (PStr name) →
  name ≠ "" →
  session_id req = name
  ∧ ∀ k, k ≠ name → (event_stream env req σ).1.2 !! k = σ !! k.
Proof.
  intros Hctx Hid Hne%truthy_true.
  assert (session_id req = name) as Hsid.
  { unfold session_id. rewrite Hctx. simpl. rewrite Hid. simpl. by rewrite Hne. }
  split; [done|]. intros k Hk. rewrite event_stream_store, Hsid.
  unfold store_after_seed.
  destruct (OLLAMA_AVAILABLE env); [|done].
  destruct (lcel_importable env); [|done]. by apply seeded_other.
Qed.

Lemma session_id_named_witness :
  session_id (request_in "chat-7" [ {| role := "user"; content := "q" |} ])
  = "chat-7"
  ∧ (event_stream env_two_models
       (request_in "chat-7" [ {| role := "user"; content := "q" |} ])
       ∅).1.2 !! "default" = None.
Proof.
  destruct (session_id_named env_two_models
              (request_in "chat-7" [ {| role := "user"; content := "q" |} ])
              ∅ {[ "conversation_id" := PStr "chat-7" ]} "chat-7")
    as [Hsid Hother].
  - reflexivity.
  - apply lookup_singleton_eq.
  - done.
  - split; [exact Hsid|]. rewrite Hother; [apply lookup_empty|done].
Defined.
